(** * VisionCut: the export pipeline of [src/App.js]

    A shallow embedding of the React component [App]: its state, the
    handlers [onImageLoad], [handleAspectChange] and [handleExport], and
    the two style expressions of the live preview.

    - JavaScript numbers are IEEE 754 binary64 values: Rocq's primitive
      [float], with the comparison and arithmetic the engine performs.
    - Template literals are kept as lists of literal and numeric pieces;
      [JS.render] turns one into a string for any number printer.
    - The browser (canvas, 2d context, [URL], [document], [console]) is a
      world of DOM elements plus the log of the calls made on it; the
      calls that can raise are decided by a [Host] record. *)

From Stdlib Require Import Floats ZArith String.
From stdpp Require Import base list.

Set Warnings "-inexact-float".

(** ** ECMAScript numbers and the [Math] built-ins the component calls *)

Module JS.

Open Scope float_scope.

Definition number := float.

(** [a > b] and [a < b]: false as soon as one side is NaN. *)
Definition gt (a b : number) : bool := b <? a.
Definition lt (a b : number) : bool := a <? b.

(** An integer below 2^63 as a number (exact below 2^53). *)
Definition of_Z (z : Z) : number := of_uint63 (Uint63.of_Z z).

(** [Math.floor]: NaN, the zeros and the infinities are returned as
    they are; a finite [m * 2^e] is already an integer when [0 <= e],
    and is otherwise cut to the integer below it. *)
Definition Math_floor (x : number) : number :=
  match Prim2SF x with
  | S754_finite s m e =>
      if (0 <=? e)%Z then x
      else
        let q := Z.shiftr (Zpos m) (- e) in
        let exact := (Z.shiftl q (- e) =? Zpos m)%Z in
        if s then (if exact then - of_Z q else - of_Z (q + 1))
        else of_Z q
  | _ => x
  end.

Definition Math_sqrt (x : number) : number := PrimFloat.sqrt x.

(** [Math.max] and [Math.min] of two arguments: NaN if either is NaN,
    and [+0] counts as larger than [-0]. *)
Definition Math_max (a b : number) : number :=
  if is_nan a || is_nan b then nan
  else if a <? b then b
  else if b <? a then a
  else if get_sign a then b else a.

Definition Math_min (a b : number) : number :=
  if is_nan a || is_nan b then nan
  else if a <? b then a
  else if b <? a then b
  else if get_sign a then a else b.

(** [x ** 2], as engines compute it. *)
Definition sq (x : number) : number := x * x.

(** A template literal [`lit${n}lit...`] before its numbers are printed. *)
Inductive piece : Type :=
| Lit (s : string)
| Num (n : number).

Definition template := list piece.

Definition render (Number_toString : number -> string) (t : template) : string :=
  foldr (fun p acc =>
           match p with
           | Lit s => String.append s acc
           | Num n => String.append (Number_toString n) acc
           end) EmptyString t.

End JS.

Open Scope float_scope.
Open Scope string_scope.
Open Scope list_scope.
Import JS.

(** ** Data of the component *)

(** [DEFAULT_ADJ] and the [adj] state: the five sliders. *)
Module Adj.
Record t : Type := mk {
  brightness : number;
  contrast : number;
  saturation : number;
  temperature : number;
  vignette : number
}.
End Adj.

Definition DEFAULT_ADJ : Adj.t :=
  {| Adj.brightness := 100;
     Adj.contrast := 100;
     Adj.saturation := 100;
     Adj.temperature := 0;
     Adj.vignette := 0 |}.

(** A crop of react-image-crop: [{unit, x, y, width, height}], with
    [unit] either ['px'] or ['%']. *)
Module Crop.
Inductive unit_t : Type := Px | Percent.

Record t : Type := mk {
  unit : unit_t;
  x : number;
  y : number;
  width : number;
  height : number
}.

(** The argument of [makeAspectCrop]: only [unit] is required. *)
Record partial : Type := mkPartial {
  p_unit : unit_t;
  p_x : option number;
  p_y : option number;
  p_width : option number;
  p_height : option number
}.

Definition with_unit (u : unit_t) (c : t) : t :=
  {| unit := u; x := x c; y := y c; width := width c; height := height c |}.
End Crop.

(** The [<img>] element behind [imgRef]: rendered and decoded sizes. *)
Module Image.
Record t : Type := mk {
  width : number;
  height : number;
  naturalWidth : number;
  naturalHeight : number
}.
End Image.

(** ** The browser *)

Inductive Exn : Type :=
| TypeError
| IndexSizeError
| InvalidStateError
| SecurityError.

(** [ctx.filter]: ["none"] or a filter list given by a template literal. *)
Inductive Filter : Type :=
| FilterNone
| FilterOf (t : template).

(** A [CanvasGradient] made by [createRadialGradient], with the colour
    stops added so far, in the order of the [addColorStop] calls. *)
Record Gradient : Type := mkGradient {
  x0 : number; y0 : number; r0 : number;
  x1 : number; y1 : number; r1 : number;
  stops : list (number * template)
}.

Definition addColorStop (grad : Gradient) (offset : number) (color : template) : Gradient :=
  {| x0 := x0 grad; y0 := y0 grad; r0 := r0 grad;
     x1 := x1 grad; y1 := y1 grad; r1 := r1 grad;
     stops := stops grad ++ [(offset, color)] |}.

Inductive FillStyle : Type :=
| FillDefault
| FillGradient (g : Gradient).

(** The hidden [<canvas>] with the state of its 2d context; [width] and
    [height] are the numbers read back from it. *)
Module Canvas.
Record t : Type := mk {
  width : number;
  height : number;
  filter : Filter;
  fillStyle : FillStyle
}.
End Canvas.

Module Anchor.
Record t : Type := mk {
  download : template;
  href : string
}.

Definition empty : t := {| download := []; href := "" |}.
End Anchor.

Inductive Element : Type :=
| ImgEl (i : Image.t)
| CanvasEl (c : Canvas.t)
| AnchorEl (a : Anchor.t).

Record Blob : Type := mkBlob { blob_type : string; blob_of : nat }.

(** What the page did, in order. Each call on an element names the
    element by its index in the document. *)
Inductive Event : Type :=
| SetWidth (canvas : nat) (w : number)
| SetHeight (canvas : nat) (h : number)
| DrawImage (canvas : nat) (f : Filter) (image : nat)
            (sx sy sw sh dx dy dw dh : number)
| FillRect (canvas : nat) (f : Filter) (style : FillStyle) (x y w h : number)
| ToBlob (canvas : nat) (type : string) (quality : number)
| CreateObjectURL (b : Blob) (url : string)
| CreateElement (tag : string) (el : nat)
| Click (el : nat) (a : Anchor.t)
| RevokeObjectURL (url : string)
| ConsoleError (msg : string) (err : Exn).

(** A task queued for a later turn of the event loop: the callback of
    [canvas.toBlob]. *)
Inductive Task : Type :=
| BlobCallback (canvas : nat).

Record World : Type := mkWorld {
  dom : list Element;
  log : list Event;
  tasks : list Task
}.

(** What the page cannot decide: whether drawing or encoding raises,
    the blob the encoder hands to the callback ([None] for [null]), the
    clock and the object URLs. *)
Record Host : Type := mkHost {
  drawImage_raises : option Exn;
  toBlob_raises : option Exn;
  encoded : option Blob;
  Date_now : number;
  objectURL : Blob -> string
}.

(** ** Computations that change the world and may raise *)

Inductive outcome (A : Type) : Type :=
| Returned (a : A)
| Raised (e : Exn).
Arguments Returned {A} a.
Arguments Raised {A} e.

Definition M (A : Type) : Type := World -> outcome A * World.

Definition ret {A} (a : A) : M A := fun w => (Returned a, w).

Definition bind {A B} (m : M A) (k : A -> M B) : M B :=
  fun w => match m w with
           | (Returned a, w') => k a w'
           | (Raised e, w') => (Raised e, w')
           end.

Definition raise {A} (e : Exn) : M A := fun w => (Raised e, w).

(** [try { body } catch (err) { handler err }] *)
Definition try_catch {A} (body : M A) (handler : Exn -> M A) : M A :=
  fun w => match body w with
           | (Returned a, w') => (Returned a, w')
           | (Raised e, w') => handler e w'
           end.

Declare Scope js_scope.
Delimit Scope js_scope with js.
Notation "'let*' x ':=' m 'in' k" := (bind m (fun x => k))
  (at level 10, x name, m at level 100, k at level 200) : js_scope.
Notation "m ';;' k" := (bind m (fun _ => k))
  (at level 100, k at level 200, right associativity) : js_scope.
Open Scope js_scope.

Definition emit (e : Event) : M unit :=
  fun w => (Returned tt, {| dom := dom w; log := log w ++ [e]; tasks := tasks w |}).

Definition enqueue (t : Task) : M unit :=
  fun w => (Returned tt, {| dom := dom w; log := log w; tasks := tasks w ++ [t] |}).

Definition get_element (el : nat) : M (option Element) :=
  fun w => (Returned (dom w !! el), w).

Definition set_element (el : nat) (e : Element) : M unit :=
  fun w => (Returned tt, {| dom := <[el := e]> (dom w); log := log w; tasks := tasks w |}).

(** [ref.current] as the element it points to, if it is of that kind. *)
Definition current_img (ref : option nat) : M (option (nat * Image.t)) :=
  match ref with
  | None => ret None
  | Some el =>
      let* e := get_element el in
      ret (match e with Some (ImgEl i) => Some (el, i) | _ => None end)
  end.

Definition current_canvas (ref : option nat) : M (option nat) :=
  match ref with
  | None => ret None
  | Some el =>
      let* e := get_element el in
      ret (match e with Some (CanvasEl _) => Some el | _ => None end)
  end.

Definition read_canvas (canvas : nat) : M Canvas.t :=
  let* e := get_element canvas in
  match e with
  | Some (CanvasEl c) => ret c
  | _ => raise TypeError
  end.

Definition update_canvas (canvas : nat) (f : Canvas.t -> Canvas.t) : M unit :=
  let* c := read_canvas canvas in
  set_element canvas (CanvasEl (f c)).

(** [canvas.width] and [canvas.height] are [unsigned long] attributes
    that reflect a content attribute. The number assigned is first
    converted as Web IDL converts to [unsigned long]: NaN, the zeros and
    the infinities give 0, any other number is cut towards zero and
    taken modulo 2^32. *)
Definition ToUint32 (v : number) : Z :=
  match Prim2SF v with
  | S754_finite s m e =>
      let a := if (0 <=? e)%Z then Z.shiftl (Zpos m) e
               else Z.shiftr (Zpos m) (- e) in
      ((if s then - a else a) mod 4294967296)%Z
  | _ => 0%Z
  end.

(** The attribute then holds that integer if it is at most 2147483647,
    and its default otherwise; this is the number read back. *)
Definition reflect_unsigned_long (default : Z) (v : number) : number :=
  let n := ToUint32 v in
  of_Z (if (n <=? 2147483647)%Z then n else default).

(** The defaults of a canvas are 300 by 150. *)
Definition canvas_width_of (v : number) : number := reflect_unsigned_long 300 v.
Definition canvas_height_of (v : number) : number := reflect_unsigned_long 150 v.

(** Assigning [canvas.width] or [canvas.height] also resets the 2d
    context to its defaults: no filter, the default fill style. The
    event keeps the number the code assigned, the canvas the number it
    holds afterwards. *)
Definition set_width (canvas : nat) (w : number) : M unit :=
  update_canvas canvas (fun c =>
    {| Canvas.width := canvas_width_of w; Canvas.height := Canvas.height c;
       Canvas.filter := FilterNone; Canvas.fillStyle := FillDefault |}) ;;
  emit (SetWidth canvas w).

Definition set_height (canvas : nat) (h : number) : M unit :=
  update_canvas canvas (fun c =>
    {| Canvas.width := Canvas.width c; Canvas.height := canvas_height_of h;
       Canvas.filter := FilterNone; Canvas.fillStyle := FillDefault |}) ;;
  emit (SetHeight canvas h).

Definition set_filter (canvas : nat) (f : Filter) : M unit :=
  update_canvas canvas (fun c =>
    {| Canvas.width := Canvas.width c; Canvas.height := Canvas.height c;
       Canvas.filter := f; Canvas.fillStyle := Canvas.fillStyle c |}).

Definition set_fillStyle (canvas : nat) (s : FillStyle) : M unit :=
  update_canvas canvas (fun c =>
    {| Canvas.width := Canvas.width c; Canvas.height := Canvas.height c;
       Canvas.filter := Canvas.filter c; Canvas.fillStyle := s |}).

(** [ctx.drawImage(image, sx, sy, sw, sh, dx, dy, dw, dh)], drawn
    through the filter in force. *)
Definition drawImage (h : Host) (canvas image : nat)
    (sx sy sw sh dx dy dw dh : number) : M unit :=
  match drawImage_raises h with
  | Some e => raise e
  | None =>
      let* c := read_canvas canvas in
      emit (DrawImage canvas (Canvas.filter c) image sx sy sw sh dx dy dw dh)
  end.

(** [ctx.createRadialGradient]: a [TypeError] on an argument that is
    not finite, an [IndexSizeError] on a negative radius. *)
Definition createRadialGradient (x0 y0 r0 x1 y1 r1 : number) : M Gradient :=
  if negb (forallb is_finite [x0; y0; r0; x1; y1; r1]) then raise TypeError
  else if lt r0 0 || lt r1 0 then raise IndexSizeError
  else ret {| x0 := x0; y0 := y0; r0 := r0; x1 := x1; y1 := y1; r1 := r1;
              stops := [] |}.

Definition fillRect (canvas : nat) (x y w h : number) : M unit :=
  let* c := read_canvas canvas in
  emit (FillRect canvas (Canvas.filter c) (Canvas.fillStyle c) x y w h).

(** [canvas.toBlob(callback, type, quality)]: raises at once on a canvas
    that may not be read; otherwise the callback runs in a later task. *)
Definition toBlob (h : Host) (canvas : nat) (type : string) (quality : number) : M unit :=
  match toBlob_raises h with
  | Some e => raise e
  | None => emit (ToBlob canvas type quality) ;; enqueue (BlobCallback canvas)
  end.

Definition createObjectURL (h : Host) (b : Blob) : M string :=
  emit (CreateObjectURL b (objectURL h b)) ;; ret (objectURL h b).

(** [document.createElement("a")]: a new element at the end of the store. *)
Definition createElement_a : M nat :=
  fun w => let el := length (dom w) in
           (Returned el,
            {| dom := dom w ++ [AnchorEl Anchor.empty];
               log := log w ++ [CreateElement "a" el];
               tasks := tasks w |}).

Definition read_anchor (el : nat) : M Anchor.t :=
  let* e := get_element el in
  match e with
  | Some (AnchorEl a) => ret a
  | _ => raise TypeError
  end.

Definition set_download (el : nat) (name : template) : M unit :=
  let* a := read_anchor el in
  set_element el (AnchorEl {| Anchor.download := name; Anchor.href := Anchor.href a |}).

Definition set_href (el : nat) (url : string) : M unit :=
  let* a := read_anchor el in
  set_element el (AnchorEl {| Anchor.download := Anchor.download a; Anchor.href := url |}).

Definition click (el : nat) : M unit :=
  let* a := read_anchor el in
  emit (Click el a).

Definition revokeObjectURL (url : string) : M unit :=
  emit (RevokeObjectURL url).

Definition console_error (msg : string) (err : Exn) : M unit :=
  emit (ConsoleError msg err).

(** ** The component [App] *)

(** The [useState] cells and the two refs. A ref holds the index of its
    element in the document, or nothing before the element is mounted. *)
Module App.
Record t : Type := mk {
  imgSrc : string;
  crop : option Crop.t;
  completedCrop : option Crop.t;
  aspect : number;
  isProcessing : bool;
  adj : Adj.t;
  imgRef : option nat;
  downloadCanvasRef : option nat
}.

Definition setCrops (c : option Crop.t) (a : t) : t :=
  {| imgSrc := imgSrc a; crop := c; completedCrop := c;
     aspect := aspect a; isProcessing := isProcessing a; adj := adj a;
     imgRef := imgRef a; downloadCanvasRef := downloadCanvasRef a |}.

Definition setCompletedCrop (c : option Crop.t) (a : t) : t :=
  {| imgSrc := imgSrc a; crop := crop a; completedCrop := c;
     aspect := aspect a; isProcessing := isProcessing a; adj := adj a;
     imgRef := imgRef a; downloadCanvasRef := downloadCanvasRef a |}.

Definition setAspect (r : number) (a : t) : t :=
  {| imgSrc := imgSrc a; crop := crop a; completedCrop := completedCrop a;
     aspect := r; isProcessing := isProcessing a; adj := adj a;
     imgRef := imgRef a; downloadCanvasRef := downloadCanvasRef a |}.

Definition setAdj (v : Adj.t) (a : t) : t :=
  {| imgSrc := imgSrc a; crop := crop a; completedCrop := completedCrop a;
     aspect := aspect a; isProcessing := isProcessing a; adj := v;
     imgRef := imgRef a; downloadCanvasRef := downloadCanvasRef a |}.
End App.

(** *** [handleExport], step 1 and 2: the source region *)

Record SourceRegion : Type := mkRegion {
  sourceX : number;
  sourceY : number;
  sourceWidth : number;
  sourceHeight : number
}.

Definition scaleX (image : Image.t) : number :=
  Image.naturalWidth image / Image.width image.

Definition scaleY (image : Image.t) : number :=
  Image.naturalHeight image / Image.height image.

(** [completedCrop && completedCrop.width > 0 && completedCrop.height > 0] *)
Definition isCropValid (completedCrop : option Crop.t) : bool :=
  match completedCrop with
  | Some c => gt (Crop.width c) 0 && gt (Crop.height c) 0
  | None => false
  end.

(** The four [isCropValid ? ... : ...] constants. The crop is read only
    on the valid side, where it exists. *)
Definition sourceRegion (image : Image.t) (completedCrop : option Crop.t) : SourceRegion :=
  match completedCrop with
  | Some c =>
      let valid := isCropValid completedCrop in
      {| sourceX := if valid then Crop.x c * scaleX image else 0;
         sourceY := if valid then Crop.y c * scaleY image else 0;
         sourceWidth := if valid then Crop.width c * scaleX image
                        else Image.naturalWidth image;
         sourceHeight := if valid then Crop.height c * scaleY image
                         else Image.naturalHeight image |}
  | None =>
      {| sourceX := 0; sourceY := 0;
         sourceWidth := Image.naturalWidth image;
         sourceHeight := Image.naturalHeight image |}
  end.

(** *** Step 3: the filter of the export *)

Definition sepia (temperature : number) : number :=
  if gt temperature 0 then temperature else 0.

Definition hue (temperature : number) : number :=
  if lt temperature 0 then temperature * 1.5 else 0.

Definition ctx_filter (adj : Adj.t) : template :=
  let brightness := Adj.brightness adj in
  let contrast := Adj.contrast adj in
  let saturation := Adj.saturation adj in
  let temperature := Adj.temperature adj in
  let sepia := sepia temperature in
  let hue := hue temperature in
  [Lit "brightness("; Num brightness; Lit "%) contrast("; Num contrast;
   Lit "%) saturate("; Num saturation; Lit "%) sepia("; Num sepia;
   Lit "%) hue-rotate("; Num hue; Lit "deg)"].

(** *** Step 5: the vignette baked into the pixels *)

Definition vignette_radius (canvas_width canvas_height vignette : number) : number :=
  let centerX := canvas_width / 2 in
  let centerY := canvas_height / 2 in
  Math_sqrt (sq centerX + sq centerY) * (1.2 - vignette / 100).

Definition vignette_color (vignette : number) : template :=
  [Lit "rgba(0,0,0,"; Num (Math_min (vignette / 100) 0.85); Lit ")"].

Definition bake_vignette (canvas : nat) (vignette : number) : M unit :=
  set_filter canvas FilterNone ;;
  let* c := read_canvas canvas in
  let centerX := Canvas.width c / 2 in
  let centerY := Canvas.height c / 2 in
  let radius := vignette_radius (Canvas.width c) (Canvas.height c) vignette in
  let* grad := createRadialGradient centerX centerY 0 centerX centerY (Math_max 1 radius) in
  let grad := addColorStop grad 0 [Lit "transparent"] in
  let grad := addColorStop grad 1 (vignette_color vignette) in
  set_fillStyle canvas (FillGradient grad) ;;
  fillRect canvas 0 0 (Canvas.width c) (Canvas.height c).

(** *** Step 6: the callback given to [canvas.toBlob] *)

Definition download_name (h : Host) : template :=
  [Lit "VISION-CUT-"; Num (Date_now h); Lit ".png"].

Definition toBlob_callback (h : Host) (blob : option Blob) : M unit :=
  match blob with
  | None => ret tt
  | Some blob =>
      let* url := createObjectURL h blob in
      let* link := createElement_a in
      set_download link (download_name h) ;;
      set_href link url ;;
      click link ;;
      revokeObjectURL url
  end.

(** *** [handleExport] *)

(** The block under [try]: steps 4 to 6. *)
Definition handleExport_try (h : Host) (canvas img : nat)
    (region : SourceRegion) (adj : Adj.t) : M unit :=
  let* c := read_canvas canvas in
  drawImage h canvas img
    (sourceX region) (sourceY region) (sourceWidth region) (sourceHeight region)
    0 0 (Canvas.width c) (Canvas.height c) ;;
  (if gt (Adj.vignette adj) 0 then bake_vignette canvas (Adj.vignette adj)
   else ret tt) ;;
  toBlob h canvas "image/png" 1.0.

(** The 2d context of the canvas is kept in the canvas record, so
    [canvas.getContext("2d")] has no counterpart here. *)
Definition handleExport (h : Host) (app : App.t) : M unit :=
  let* image := current_img (App.imgRef app) in
  let* canvas := current_canvas (App.downloadCanvasRef app) in
  match image, canvas with
  | Some (img, image), Some canvas =>
      let completedCrop := App.completedCrop app in
      let adj := App.adj app in
      let region := sourceRegion image completedCrop in
      set_width canvas (Math_floor (sourceWidth region)) ;;
      set_height canvas (Math_floor (sourceHeight region)) ;;
      set_filter canvas (FilterOf (ctx_filter adj)) ;;
      try_catch
        (handleExport_try h canvas img region adj)
        (fun err => console_error "Export failed:" err)
  | _, _ => ret tt
  end.

(** The event loop after a click on "Download PNG": the handler, then
    the tasks it queued, each with the blob the encoder produced. *)
Definition run_task (h : Host) (t : Task) : M unit :=
  match t with
  | BlobCallback _ => toBlob_callback h (encoded h)
  end.

Fixpoint run_tasks (h : Host) (ts : list Task) : M unit :=
  match ts with
  | [] => ret tt
  | t :: ts => run_task h t ;; run_tasks h ts
  end.

Definition take_tasks : M (list Task) :=
  fun w => (Returned (tasks w), {| dom := dom w; log := log w; tasks := [] |}).

Definition click_download (h : Host) (app : App.t) : M unit :=
  handleExport h app ;;
  let* ts := take_tasks in
  run_tasks h ts.

(** *** The live preview: the two [style] expressions of the JSX *)

Definition vignette_overlay_background (adj : Adj.t) : template :=
  [Lit "radial-gradient(circle, transparent ";
   Num (Math_max 0 (60 - Adj.vignette adj / 2));
   Lit "%, rgba(0,0,0,";
   Num (Math_min (Adj.vignette adj / 100) 0.85);
   Lit ") 100%)"].

Definition img_style_filter (adj : Adj.t) : template :=
  [Lit "brightness("; Num (Adj.brightness adj);
   Lit "%) contrast("; Num (Adj.contrast adj);
   Lit "%) saturate("; Num (Adj.saturation adj);
   Lit "%) sepia(";
   Num (if gt (Adj.temperature adj) 0 then Adj.temperature adj else 0);
   Lit "%) hue-rotate(";
   Num (if lt (Adj.temperature adj) 0 then Adj.temperature adj * 1.5 else 0);
   Lit "deg)"].

(** What [App] renders inside [<main className="workspace">]; the
    workspace exists only once an image is chosen ([imgSrc] not empty). *)
Record Workspace : Type := mkWorkspace {
  overlay_background : template;
  img_filter : template
}.

Definition render_workspace (app : App.t) : option Workspace :=
  if String.eqb (App.imgSrc app) "" then None
  else Some {| overlay_background := vignette_overlay_background (App.adj app);
               img_filter := img_style_filter (App.adj app) |}.

(** *** The handlers that install a crop *)

(** [reader.onload] of [onSelectFile]: a new file resets the sliders and
    clears the committed crop. *)
Definition onSelectFile_onload (result : string) (app : App.t) : App.t :=
  {| App.imgSrc := result; App.crop := App.crop app; App.completedCrop := None;
     App.aspect := App.aspect app; App.isProcessing := App.isProcessing app;
     App.adj := DEFAULT_ADJ;
     App.imgRef := App.imgRef app;
     App.downloadCanvasRef := App.downloadCanvasRef app |}.

(** [onComplete] of [<ReactCrop>]: [(c) => setCompletedCrop(c)], called
    by the widget with a crop in pixels at pointer release and when a
    crop first appears. *)
Definition onComplete (c : Crop.t) (app : App.t) : App.t :=
  App.setCompletedCrop (Some c) app.

(** [onChange] of [<ReactCrop>]: [(c) => setCrop(c)], the crop being
    drawn. *)
Definition onChange (c : Crop.t) (app : App.t) : App.t :=
  {| App.imgSrc := App.imgSrc app; App.crop := Some c;
     App.completedCrop := App.completedCrop app;
     App.aspect := App.aspect app; App.isProcessing := App.isProcessing app;
     App.adj := App.adj app; App.imgRef := App.imgRef app;
     App.downloadCanvasRef := App.downloadCanvasRef app |}.

(** [centerCrop] and [makeAspectCrop] belong to react-image-crop, which
    is not part of the repository: the handlers take them as given. *)
Section Handlers.

Variable makeAspectCrop : Crop.partial -> number -> number -> number -> Crop.t.
Variable centerCrop : Crop.t -> number -> number -> Crop.t.

Definition percent_width (w : number) : Crop.partial :=
  {| Crop.p_unit := Crop.Percent; Crop.p_x := None; Crop.p_y := None;
     Crop.p_width := Some w; Crop.p_height := None |}.

(** [onImageLoad], the handler by itself; what a load does on the page,
    with the reaction of the widget, is [image_load] below. *)
Definition onImageLoad (width height : number) (app : App.t) : App.t :=
  let initialCrop :=
    centerCrop (makeAspectCrop (percent_width 100) (App.aspect app) width height)
               width height in
  App.setCrops (Some initialCrop) app.

Definition handleAspectChange (newAspect : number) (document : list Element)
    (app : App.t) : App.t :=
  let app := App.setAspect newAspect app in
  match App.imgRef app with
  | Some el =>
      match document !! el with
      | Some (ImgEl image) =>
          let width := Image.width image in
          let height := Image.height image in
          let newCrop :=
            centerCrop (makeAspectCrop (percent_width 90) newAspect width height)
                       width height in
          App.setCrops (Some newCrop) app
      | _ => app
      end
  | None => app
  end.

End Handlers.

(** A reference instance of the two library functions, after
    react-image-crop: a percent crop is taken to pixels of the container,
    fitted to the aspect or centred, and taken back to percent. *)
Module ReactImageCrop.

(** [v ? f v : 0] on a field that may be missing *)
Definition truthy_or_0 (v : option number) (f : number -> number) : number :=
  match v with
  | Some v => if is_nan v || is_zero v then 0 else f v
  | None => 0
  end.

Definition or_0 (v : option number) : number :=
  match v with Some v => v | None => 0 end.

Definition truthy (v : option number) : bool :=
  match v with
  | Some v => negb (is_nan v || is_zero v)
  | None => false
  end.

Definition to_partial (c : Crop.t) : Crop.partial :=
  {| Crop.p_unit := Crop.unit c; Crop.p_x := Some (Crop.x c);
     Crop.p_y := Some (Crop.y c); Crop.p_width := Some (Crop.width c);
     Crop.p_height := Some (Crop.height c) |}.

Definition convertToPixelCrop (crop : Crop.partial)
    (containerWidth containerHeight : number) : Crop.t :=
  match Crop.p_unit crop with
  | Crop.Px =>
      {| Crop.unit := Crop.Px;
         Crop.x := or_0 (Crop.p_x crop); Crop.y := or_0 (Crop.p_y crop);
         Crop.width := or_0 (Crop.p_width crop);
         Crop.height := or_0 (Crop.p_height crop) |}
  | Crop.Percent =>
      {| Crop.unit := Crop.Px;
         Crop.x := truthy_or_0 (Crop.p_x crop) (fun v => v * containerWidth / 100);
         Crop.y := truthy_or_0 (Crop.p_y crop) (fun v => v * containerHeight / 100);
         Crop.width :=
           truthy_or_0 (Crop.p_width crop) (fun v => v * containerWidth / 100);
         Crop.height :=
           truthy_or_0 (Crop.p_height crop) (fun v => v * containerHeight / 100) |}
  end.

Definition convertToPercentCrop (crop : Crop.t)
    (containerWidth containerHeight : number) : Crop.t :=
  match Crop.unit crop with
  | Crop.Percent => crop
  | Crop.Px =>
      let pc (v size : number) :=
        if is_nan v || is_zero v then 0 else v / size * 100 in
      {| Crop.unit := Crop.Percent;
         Crop.x := pc (Crop.x crop) containerWidth;
         Crop.y := pc (Crop.y crop) containerHeight;
         Crop.width := pc (Crop.width crop) containerWidth;
         Crop.height := pc (Crop.height crop) containerHeight |}
  end.

Definition set_size (w h : number) (c : Crop.t) : Crop.t :=
  {| Crop.unit := Crop.unit c; Crop.x := Crop.x c; Crop.y := Crop.y c;
     Crop.width := w; Crop.height := h |}.

Definition set_pos (x y : number) (c : Crop.t) : Crop.t :=
  {| Crop.unit := Crop.unit c; Crop.x := x; Crop.y := y;
     Crop.width := Crop.width c; Crop.height := Crop.height c |}.

Definition makeAspectCrop (crop : Crop.partial)
    (aspect containerWidth containerHeight : number) : Crop.t :=
  let pixelCrop := convertToPixelCrop crop containerWidth containerHeight in
  let pixelCrop :=
    if truthy (Crop.p_width crop)
    then set_size (Crop.width pixelCrop) (Crop.width pixelCrop / aspect) pixelCrop
    else pixelCrop in
  let pixelCrop :=
    if truthy (Crop.p_height crop)
    then set_size (Crop.height pixelCrop * aspect) (Crop.height pixelCrop) pixelCrop
    else pixelCrop in
  let pixelCrop :=
    if gt (Crop.y pixelCrop + Crop.height pixelCrop) containerHeight
    then let h := containerHeight - Crop.y pixelCrop in
         set_size (h * aspect) h pixelCrop
    else pixelCrop in
  let pixelCrop :=
    if gt (Crop.x pixelCrop + Crop.width pixelCrop) containerWidth
    then let w := containerWidth - Crop.x pixelCrop in
         set_size w (w / aspect) pixelCrop
    else pixelCrop in
  match Crop.p_unit crop with
  | Crop.Percent => convertToPercentCrop pixelCrop containerWidth containerHeight
  | Crop.Px => pixelCrop
  end.

Definition centerCrop (crop : Crop.t)
    (containerWidth containerHeight : number) : Crop.t :=
  let pixelCrop :=
    convertToPixelCrop (to_partial crop) containerWidth containerHeight in
  let pixelCrop :=
    set_pos ((containerWidth - Crop.width pixelCrop) / 2)
            ((containerHeight - Crop.height pixelCrop) / 2) pixelCrop in
  match Crop.unit crop with
  | Crop.Percent => convertToPercentCrop pixelCrop containerWidth containerHeight
  | Crop.Px => pixelCrop
  end.

(** [ReactCrop.componentDidUpdate(prevProps)]: when the [crop] prop was
    absent at the render before and is present now, and the box of the
    widget has a width and a height, the widget calls [onComplete] with
    the crop in pixels of the box. The result is the argument of that
    call, if the call is made. *)
Definition componentDidUpdate (prevCrop crop : option Crop.t)
    (boxWidth boxHeight : number) : option Crop.t :=
  match prevCrop, crop with
  | None, Some c =>
      if truthy (Some boxWidth) && truthy (Some boxHeight)
      then Some (convertToPixelCrop (to_partial c) boxWidth boxHeight)
      else None
  | _, _ => None
  end.

End ReactImageCrop.

(** *** The handlers on the page *)

(** [<ReactCrop crop={crop} onComplete={(c) => setCompletedCrop(c)}>] is
    rendered only while [imgSrc] is not empty. When a handler has
    changed the state, React renders again, and the widget, if it was
    there before and still is, runs [componentDidUpdate] with the [crop]
    of the render before; what it passes to [onComplete] then replaces
    the committed crop. [boxWidth] and [boxHeight] are the size of the
    widget on the page. *)
Definition rerender (boxWidth boxHeight : number) (before after : App.t) : App.t :=
  if String.eqb (App.imgSrc before) "" || String.eqb (App.imgSrc after) ""
  then after
  else
    match ReactImageCrop.componentDidUpdate (App.crop before) (App.crop after)
            boxWidth boxHeight with
    | Some pixelCrop => onComplete pixelCrop after
    | None => after
    end.

(** The [load] event of the image: [onImageLoad], then the render. *)
Definition image_load (width height boxWidth boxHeight : number)
    (app : App.t) : App.t :=
  rerender boxWidth boxHeight app
    (onImageLoad ReactImageCrop.makeAspectCrop ReactImageCrop.centerCrop
       width height app).

(** A click on a preset: [handleAspectChange], then the render. *)
Definition preset_click (newAspect : number) (document : list Element)
    (boxWidth boxHeight : number) (app : App.t) : App.t :=
  rerender boxWidth boxHeight app
    (handleAspectChange ReactImageCrop.makeAspectCrop ReactImageCrop.centerCrop
       newAspect document app).

(** ** Sample pages *)

Definition image_4000x3000 : Image.t :=
  {| Image.width := 800; Image.height := 600;
     Image.naturalWidth := 4000; Image.naturalHeight := 3000 |}.

Definition blank_canvas : Canvas.t :=
  {| Canvas.width := 300; Canvas.height := 150;
     Canvas.filter := FilterNone; Canvas.fillStyle := FillDefault |}.

(** The mounted page: the image is element 0, the hidden canvas element 1. *)
Definition page (image : Image.t) : World :=
  {| dom := [ImgEl image; CanvasEl blank_canvas]; log := []; tasks := [] |}.

Definition app0 (completedCrop : option Crop.t) (adj : Adj.t) : App.t :=
  {| App.imgSrc := "data:image/png;base64,AAAA";
     App.crop := completedCrop; App.completedCrop := completedCrop;
     App.aspect := 16 / 9; App.isProcessing := false; App.adj := adj;
     App.imgRef := Some 0%nat; App.downloadCanvasRef := Some 1%nat |}.

Definition crop_200x150 : Crop.t :=
  {| Crop.unit := Crop.Px; Crop.x := 100; Crop.y := 100;
     Crop.width := 200; Crop.height := 150 |}.

Definition png (n : nat) : Blob := {| blob_type := "image/png"; blob_of := n |}.

Definition host_ok : Host :=
  {| drawImage_raises := None; toBlob_raises := None;
     encoded := Some (png 1); Date_now := 1700000000000;
     objectURL := fun _ => "blob:1" |}.

Definition host_draw_fails : Host :=
  {| drawImage_raises := Some InvalidStateError; toBlob_raises := None;
     encoded := Some (png 1); Date_now := 1700000000000;
     objectURL := fun _ => "blob:1" |}.

Definition host_no_blob : Host :=
  {| drawImage_raises := None; toBlob_raises := None;
     encoded := None; Date_now := 1700000000000;
     objectURL := fun _ => "blob:1" |}.

Definition set_vignette (v : number) (a : Adj.t) : Adj.t :=
  {| Adj.brightness := Adj.brightness a; Adj.contrast := Adj.contrast a;
     Adj.saturation := Adj.saturation a; Adj.temperature := Adj.temperature a;
     Adj.vignette := v |}.

Definition set_temperature (t : number) (a : Adj.t) : Adj.t :=
  {| Adj.brightness := Adj.brightness a; Adj.contrast := Adj.contrast a;
     Adj.saturation := Adj.saturation a; Adj.temperature := t;
     Adj.vignette := Adj.vignette a |}.


(** ** Describing the world after an export *)

(** The world [w] after the canvas [k] became [c], the events [evs] were
    logged and the tasks [ts] queued. *)
Definition after (k : nat) (c : Canvas.t) (evs : list Event) (ts : list Task)
    (w : World) : World :=
  {| dom := <[k := CanvasEl c]> (dom w);
     log := log w ++ evs;
     tasks := tasks w ++ ts |}.

(** The size of the canvas once the floored width and height of the
    region are assigned to it. *)
Definition target_width (region : SourceRegion) : number :=
  canvas_width_of (Math_floor (sourceWidth region)).

Definition target_height (region : SourceRegion) : number :=
  canvas_height_of (Math_floor (sourceHeight region)).

(** The canvas after steps 1 to 3. *)
Definition sized_canvas (region : SourceRegion) (adj : Adj.t) : Canvas.t :=
  {| Canvas.width := target_width region;
     Canvas.height := target_height region;
     Canvas.filter := FilterOf (ctx_filter adj);
     Canvas.fillStyle := FillDefault |}.

Definition sizing (k : nat) (region : SourceRegion) : list Event :=
  [SetWidth k (Math_floor (sourceWidth region));
   SetHeight k (Math_floor (sourceHeight region))].

Definition drawing (k i : nat) (region : SourceRegion) (adj : Adj.t) : Event :=
  DrawImage k (FilterOf (ctx_filter adj)) i
    (sourceX region) (sourceY region) (sourceWidth region) (sourceHeight region)
    0 0 (target_width region) (target_height region).

(** The gradient of step 5 on a [W] by [H] canvas. *)
Definition vignette_gradient (W H vignette : number) : Gradient :=
  {| x0 := W / 2; y0 := H / 2; r0 := 0;
     x1 := W / 2; y1 := H / 2;
     r1 := Math_max 1 (vignette_radius W H vignette);
     stops := [(0, [Lit "transparent"]); (1, vignette_color vignette)] |}.

Definition vignette_canvas (region : SourceRegion) (adj : Adj.t) : Canvas.t :=
  let W := target_width region in
  let H := target_height region in
  {| Canvas.width := W; Canvas.height := H;
     Canvas.filter := FilterNone;
     Canvas.fillStyle := FillGradient (vignette_gradient W H (Adj.vignette adj)) |}.

Definition painting (k : nat) (region : SourceRegion) (adj : Adj.t) : Event :=
  let W := target_width region in
  let H := target_height region in
  FillRect k FilterNone (FillGradient (vignette_gradient W H (Adj.vignette adj)))
           0 0 W H.

Definition gradient_args_finite (W H vignette : number) : bool :=
  let cx := W / 2 in
  let cy := H / 2 in
  forallb is_finite [cx; cy; 0; cx; cy; Math_max 1 (vignette_radius W H vignette)].

Definition unfiltered (c : Canvas.t) : Canvas.t :=
  {| Canvas.width := Canvas.width c; Canvas.height := Canvas.height c;
     Canvas.filter := FilterNone; Canvas.fillStyle := Canvas.fillStyle c |}.

(** How step 6 ends on a canvas [c] with the events [evs] logged so far. *)
Definition encoding (h : Host) (k : nat) (c : Canvas.t) (evs : list Event)
    (w0 : World) : World :=
  match toBlob_raises h with
  | Some e => after k c (evs ++ [ConsoleError "Export failed:" e]) [] w0
  | None => after k c (evs ++ [ToBlob k "image/png" 1.0]) [BlobCallback k] w0
  end.

(** The world after [handleExport] on a page where [imgRef] is the image
    [i] and [downloadCanvasRef] the canvas [k], by the path taken. *)
Definition exported (h : Host) (k i : nat) (region : SourceRegion) (adj : Adj.t)
    (w0 : World) : World :=
  let c1 := sized_canvas region adj in
  match drawImage_raises h with
  | Some e => after k c1 (sizing k region ++ [ConsoleError "Export failed:" e]) [] w0
  | None =>
      let drawn := sizing k region ++ [drawing k i region adj] in
      if gt (Adj.vignette adj) 0 then
        if gradient_args_finite (Canvas.width c1) (Canvas.height c1) (Adj.vignette adj)
        then encoding h k (vignette_canvas region adj)
                      (drawn ++ [painting k region adj]) w0
        else after k (unfiltered c1)
                   (drawn ++ [ConsoleError "Export failed:" TypeError]) [] w0
      else encoding h k c1 drawn w0
  end.

(** [ref.current] read off the document. *)
Definition img_at (ref : option nat) (d : list Element) : option (nat * Image.t) :=
  match ref with
  | Some el => match d !! el with Some (ImgEl i) => Some (el, i) | _ => None end
  | None => None
  end.

Definition canvas_at (ref : option nat) (d : list Element) : option nat :=
  match ref with
  | Some el => match d !! el with Some (CanvasEl _) => Some el | _ => None end
  | None => None
  end.

(** ** Notions the statements use *)

(** The committed crop is absent, or has [width <= 0] or [height <= 0]. *)
Definition invalid_crop (completedCrop : option Crop.t) : Prop :=
  match completedCrop with
  | None => True
  | Some c => (Crop.width c <=? 0) = true \/ (Crop.height c <=? 0) = true
  end.

Definition whole_image (image : Image.t) : SourceRegion :=
  {| sourceX := 0; sourceY := 0;
     sourceWidth := Image.naturalWidth image;
     sourceHeight := Image.naturalHeight image |}.

(** Black with the given alpha, as CSS writes it. *)
Definition black (alpha : number) : template :=
  [Lit "rgba(0,0,0,"; Num alpha; Lit ")"].

(** A circular CSS gradient of two stops: [inner] at [at_percent] percent
    of the radius, [outer] at 100 percent. *)
Definition css_radial_gradient (inner : template) (at_percent : number)
    (outer : template) : template :=
  [Lit "radial-gradient(circle, "] ++ inner ++ [Lit " "; Num at_percent; Lit "%, "]
    ++ outer ++ [Lit " 100%)"].

(** What the preview shows over the image, if the workspace is rendered. *)
Definition preview_overlay (app : App.t) : option template :=
  match render_workspace app with
  | Some ws => Some (overlay_background ws)
  | None => None
  end.

(** Were the target made anew for each export, the canvas an export
    sizes would be an element the document did not hold before. *)
Definition fresh_target_per_export : Prop :=
  forall (h : Host) (app : App.t) (w w' : World) (k : nat) (x : number),
    handleExport h app w = (Returned tt, w') ->
    In (SetWidth k x) (log w') -> ~ In (SetWidth k x) (log w) ->
    (length (dom w) <= k)%nat.

(** Were a percent crop what every image load leaves committed. *)
Definition load_commits_percent : Prop :=
  forall (width height boxWidth boxHeight : number) (app : App.t),
    App.imgSrc app <> "" ->
    exists c,
      App.completedCrop (image_load width height boxWidth boxHeight app) = Some c
      /\ Crop.unit c = Crop.Percent.

(** More samples. *)

Definition image_1000x1000 : Image.t :=
  {| Image.width := 300; Image.height := 300;
     Image.naturalWidth := 1000; Image.naturalHeight := 1000 |}.

Definition crop_100x200 : Crop.t :=
  {| Crop.unit := Crop.Px; Crop.x := 0; Crop.y := 0;
     Crop.width := 100; Crop.height := 200 |}.

(** The same picture before it is laid out: displayed at 0x0. *)
Definition image_shown_at_0 : Image.t :=
  {| Image.width := 0; Image.height := 0;
     Image.naturalWidth := 4000; Image.naturalHeight := 3000 |}.

Definition crop_0x150 : Crop.t :=
  {| Crop.unit := Crop.Px; Crop.x := 100; Crop.y := 100;
     Crop.width := 0; Crop.height := 150 |}.

(** ** The rest of the component *)

(** *** The sliders of the "Tuning" panel *)

(** The keys of [DEFAULT_ADJ], which [Object.keys] lists in this order. *)
Module Key.
Inductive t : Type := brightness | contrast | saturation | temperature | vignette.

Definition eqb (a b : t) : bool :=
  match a, b with
  | brightness, brightness | contrast, contrast | saturation, saturation
  | temperature, temperature | vignette, vignette => true
  | _, _ => false
  end.
End Key.

Definition adj_keys : list Key.t :=
  [Key.brightness; Key.contrast; Key.saturation; Key.temperature; Key.vignette].

(** [adj[key]] *)
Definition adj_get (key : Key.t) (adj : Adj.t) : number :=
  match key with
  | Key.brightness => Adj.brightness adj
  | Key.contrast => Adj.contrast adj
  | Key.saturation => Adj.saturation adj
  | Key.temperature => Adj.temperature adj
  | Key.vignette => Adj.vignette adj
  end.

(** [{ ...adj, [key]: v }] *)
Definition adj_set (key : Key.t) (v : number) (adj : Adj.t) : Adj.t :=
  {| Adj.brightness := if Key.eqb key Key.brightness then v else Adj.brightness adj;
     Adj.contrast := if Key.eqb key Key.contrast then v else Adj.contrast adj;
     Adj.saturation := if Key.eqb key Key.saturation then v else Adj.saturation adj;
     Adj.temperature := if Key.eqb key Key.temperature then v else Adj.temperature adj;
     Adj.vignette := if Key.eqb key Key.vignette then v else Adj.vignette adj |}.

(** The [min] and [max] attributes of the range input of a key, as the
    numbers the strings ["-100"], ["0"] and ["200"] stand for. *)
Definition slider_min (key : Key.t) : number :=
  if Key.eqb key Key.temperature then -100 else 0.

Definition slider_max (key : Key.t) : number := 200.

Section Sliders.

(** [parseFloat], applied to the value the range input reports. *)
Variable parseFloat : string -> number.

(** [onChange] of the range input of [key]. *)
Definition slider_onChange (key : Key.t) (value : string) (app : App.t) : App.t :=
  App.setAdj (adj_set key (parseFloat value) (App.adj app)) app.

End Sliders.

(** [onClick] of the "Default" button. *)
Definition reset_onClick (app : App.t) : App.t := App.setAdj DEFAULT_ADJ app.

(** *** The aspect presets *)

(** The three buttons of the ratio group, with the aspect each passes to
    [handleAspectChange]. *)
Definition presets : list (string * number) :=
  [("16:9", 16 / 9); ("1:1", 1); ("9:16", 9 / 16)].

(** [className={aspect === preset ? "active" : ""}] *)
Definition ratio_className (aspect preset : number) : string :=
  if aspect =? preset then "active" else "".

Definition ratio_group (app : App.t) : list (string * string) :=
  map (fun b => (fst b, ratio_className (App.aspect app) (snd b))) presets.

(** *** Choosing a file *)

(** [onSelectFile]: with no first file nothing happens; otherwise the
    reader loads it and [reader.onload] runs with its data URL. A file
    stands here for the data URL the reader produces from it, and
    [files] is [None] when the input has no file list. *)
Definition onSelectFile (files : option (list string)) (app : App.t) : App.t :=
  match files with
  | Some (file :: _) => onSelectFile_onload file app
  | _ => app
  end.

(** *** Background removal *)

Definition setImgSrc (src : string) (a : App.t) : App.t :=
  {| App.imgSrc := src; App.crop := App.crop a;
     App.completedCrop := App.completedCrop a;
     App.aspect := App.aspect a; App.isProcessing := App.isProcessing a;
     App.adj := App.adj a; App.imgRef := App.imgRef a;
     App.downloadCanvasRef := App.downloadCanvasRef a |}.

Definition setIsProcessing (b : bool) (a : App.t) : App.t :=
  {| App.imgSrc := App.imgSrc a; App.crop := App.crop a;
     App.completedCrop := App.completedCrop a;
     App.aspect := App.aspect a; App.isProcessing := b;
     App.adj := App.adj a; App.imgRef := App.imgRef a;
     App.downloadCanvasRef := App.downloadCanvasRef a |}.

(** What [handleRemoveBG] does to the page: the browser calls of the
    export, the call of the segmentation library, the line its
    [progress] callback logs for a report (the percentage is printed
    with [toFixed(0)]), and [alert]. *)
Inductive UiEvent : Type :=
| Browser (e : Event)
| RemoveBackground (src : string) (model : string)
| ProgressLog (key : string) (percent : number)
| Alert (msg : string).

Definition bg_alert : string :=
  "AI Processing failed. Ensure you have a stable connection for the initial model download.".

(** What the library does with one call: the progress reports
    [(key, current, total)] it makes, then the blob its promise
    resolves to or the error it rejects with. *)
Record Removal : Type := mkRemoval {
  reports : list (string * number * number);
  settled : Blob + Exn
}.

(** [config.progress] *)
Definition progress (report : string * number * number) : UiEvent :=
  match report with
  | (key, current, total) => ProgressLog key (current / total * 100)
  end.

(** [handleRemoveBG] up to its [await]: nothing without an image;
    otherwise the busy flag goes up and [removeBackground] is called on
    the [imgSrc] of this render. *)
Definition handleRemoveBG_begin (app : App.t) : option (App.t * list UiEvent) :=
  if String.eqb (App.imgSrc app) "" then None
  else Some (setIsProcessing true app, [RemoveBackground (App.imgSrc app) "medium"]).

(** [handleRemoveBG] after the [await], on the state of that moment.
    The [finally] block lowers the busy flag. *)
Definition handleRemoveBG_settle (h : Host) (r : Removal) (app : App.t)
  : App.t * list UiEvent :=
  match settled r with
  | inl blob =>
      let newUrl := objectURL h blob in
      (setIsProcessing false (setImgSrc newUrl app),
       map progress (reports r) ++ [Browser (CreateObjectURL blob newUrl)])
  | inr err =>
      (setIsProcessing false app,
       map progress (reports r)
         ++ [Browser (ConsoleError "BG removal error:" err); Alert bg_alert])
  end.

(** The whole of [handleRemoveBG], with [meanwhile] for what other
    handlers do to the state while the promise is pending. *)
Definition handleRemoveBG (h : Host) (r : Removal)
    (meanwhile : App.t -> App.t) (app : App.t) : App.t * list UiEvent :=
  match handleRemoveBG_begin app with
  | None => (app, [])
  | Some (app1, evs1) =>
      let (app2, evs2) := handleRemoveBG_settle h r (meanwhile app1) in
      (app2, evs1 ++ evs2)
  end.

(** [disabled={isProcessing}] of the "Remove Background" button. *)
Definition magic_btn_disabled (app : App.t) : bool := App.isProcessing app.

(** *** What the user and the page can do to the state *)

(** Every way in which the state of [App] changes, but the settling of
    a background removal: the events of the controls that [App] renders
    and the [load] event of the image. "Download PNG" is not among
    them: [handleExport] sets no state. A click on the logo reloads the
    page and ends everything, a pending removal included. *)
Inductive Action : Type :=
| MoveSlider (key : Key.t) (value : string)
| ClickDefault
| ChooseFiles (files : option (list string))
| ImageLoad (width height : number)
| ClickPreset (newAspect : number) (document : list Element)
| CropChange (c : Crop.t)
| CropComplete (c : Crop.t)
| ClickRemoveBackground.

Section Actions.

Variable parseFloat : string -> number.

(** The handler an action runs. A disabled button takes no click; the
    click on "Remove Background" otherwise runs [handleRemoveBG] up to
    its [await]. *)
Definition handler_of (a : Action) (app : App.t) : App.t :=
  match a with
  | MoveSlider key value => slider_onChange parseFloat key value app
  | ClickDefault => reset_onClick app
  | ChooseFiles files => onSelectFile files app
  | ImageLoad width height =>
      onImageLoad ReactImageCrop.makeAspectCrop ReactImageCrop.centerCrop
        width height app
  | ClickPreset newAspect document =>
      handleAspectChange ReactImageCrop.makeAspectCrop ReactImageCrop.centerCrop
        newAspect document app
  | CropChange c => onChange c app
  | CropComplete c => onComplete c app
  | ClickRemoveBackground =>
      if magic_btn_disabled app then app
      else match handleRemoveBG_begin app with
           | Some (app1, _) => app1
           | None => app
           end
  end.

(** One action on the page: its handler, then the render, with the
    size the widget has at that moment. *)
Definition run_action (step : Action * (number * number)) (app : App.t) : App.t :=
  let '(a, (boxWidth, boxHeight)) := step in
  rerender boxWidth boxHeight app (handler_of a app).

Definition run_actions (steps : list (Action * (number * number)))
    (app : App.t) : App.t :=
  fold_left (fun app step => run_action step app) steps app.

End Actions.

Definition app_unmounted : App.t :=
  {| App.imgSrc := ""; App.crop := None; App.completedCrop := None;
     App.aspect := 16 / 9; App.isProcessing := false; App.adj := DEFAULT_ADJ;
     App.imgRef := None; App.downloadCanvasRef := Some 1%nat |}.

Definition host_tainted : Host :=
  {| drawImage_raises := None; toBlob_raises := Some SecurityError;
     encoded := Some (png 1); Date_now := 1700000000000;
     objectURL := fun _ => "blob:1" |}.

Definition crop_nan_width : Crop.t :=
  {| Crop.unit := Crop.Px; Crop.x := 100; Crop.y := 100;
     Crop.width := nan; Crop.height := 150 |}.

Definition removal_ok : Removal :=
  {| reports := [("fetch:model", 1, 4); ("fetch:model", 4, 4)];
     settled := inl (png 2) |}.

Definition removal_fails : Removal :=
  {| reports := [("fetch:model", 1, 4)]; settled := inr TypeError |}.

(** [f] is NaN or carries the sign [s]. *)
Definition sign_or_nan (s : bool) (f : spec_float) : Prop :=
  f = S754_nan \/ f = S754_zero s \/ f = S754_infinity s
  \/ exists m e, f = S754_finite s m e.

(** ** Comparisons of numbers *)

Section Comparisons.

Implicit Types x t r : number.

Ltac by_spec x :=
  unfold gt, lt; rewrite ?ltb_spec, ?leb_spec, ?FloatAxioms.eqb_spec;
  unfold SFltb, SFleb, SFeqb;
  destruct (Prim2SF x) as [[|]|[|]| |[|] ? ?]; cbn; congruence.

Lemma gt_0_not_lt_0 t : gt t 0 = true -> lt t 0 = false.
Proof. by_spec t. Qed.

Lemma lt_0_not_gt_0 t : lt t 0 = true -> gt t 0 = false.
Proof. by_spec t. Qed.

Lemma eq_0_not_gt_0 t : (t =? 0) = true -> gt t 0 = false.
Proof. by_spec t. Qed.

Lemma eq_0_not_lt_0 t : (t =? 0) = true -> lt t 0 = false.
Proof. by_spec t. Qed.

Lemma le_0_not_gt_0 x : (x <=? 0) = true -> gt x 0 = false.
Proof. by_spec x. Qed.

Lemma gt_0_not_le_0 x : gt x 0 = true -> (x <=? 0) = false.
Proof. by_spec x. Qed.

Lemma SFcompare_refl (f : spec_float) :
  f <> S754_nan -> SFcompare f f = Some Eq.
Proof.
  destruct f as [[|]|[|]| |[|] m e]; cbn; try congruence; intros _;
    rewrite Z.compare_refl, Pos.compare_cont_refl; reflexivity.
Qed.

Lemma is_nan_spec x : is_nan x = true -> Prim2SF x = S754_nan.
Proof.
  unfold is_nan. rewrite FloatAxioms.eqb_spec. unfold SFeqb.
  destruct (Prim2SF x) as [s|s| |s m e] eqn:E; try reflexivity;
    rewrite SFcompare_refl by discriminate; discriminate.
Qed.

Lemma nan_not_gt_0 x : is_nan x = true -> gt x 0 = false.
Proof.
  intros H. unfold gt. rewrite ltb_spec, (is_nan_spec x H). reflexivity.
Qed.

Lemma Prim2SF_1 : Prim2SF 1 = S754_finite false 4503599627370496 (-52).
Proof. vm_compute. reflexivity. Qed.

Lemma lt_1_not_le_0 r : (1 <? r) = true -> (r <=? 0) = false.
Proof. rewrite ltb_spec, Prim2SF_1. by_spec r. Qed.

Lemma lt_le x r : (x <? r) = true -> (x <=? r) = true.
Proof.
  rewrite ltb_spec, leb_spec. unfold SFltb, SFleb.
  destruct (SFcompare (Prim2SF x) (Prim2SF r)) as [[| |]|]; congruence.
Qed.

End Comparisons.

(** ** The built-ins on sample values *)

Example Math_floor_cuts_down :
  Math_floor 2.5 = 2 /\ Math_floor 2.7 = 2 /\ Math_floor 2.1 = 2
  /\ Math_floor 7 = 7 /\ Math_floor 0.3 = 0
  /\ Math_floor (100 * (1000 / 300)) = 333.
Proof. repeat split; vm_compute; reflexivity. Qed.

Example Math_floor_negative :
  Math_floor (-2.5) = -3 /\ Math_floor (-2) = -2 /\ Math_floor (-0.3) = -1.
Proof. repeat split; vm_compute; reflexivity. Qed.

Example Math_floor_keeps_specials :
  Math_floor nan = nan /\ Math_floor infinity = infinity
  /\ Math_floor 1e300 = 1e300
  /\ Math_floor 4503599627370495.5 = 4503599627370495.
Proof. repeat split; vm_compute; reflexivity. Qed.

Example Math_max_min_samples :
  Math_max 1 (-3) = 1 /\ Math_max 1 nan = nan /\ Math_max 1 2.5 = 2.5
  /\ Math_min (150 / 100) 0.85 = 0.85 /\ Math_min (40 / 100) 0.85 = 0.4
  /\ Prim2SF (Math_max (-0) 0) = S754_zero false
  /\ Prim2SF (Math_min 0 (-0)) = S754_zero true.
Proof. repeat split; vm_compute; reflexivity. Qed.

Example click_download_sample :
  log (snd (click_download host_ok (app0 (Some crop_200x150) DEFAULT_ADJ)
              (page image_4000x3000)))
  = [SetWidth 1 1000; SetHeight 1 750;
     DrawImage 1 (FilterOf (ctx_filter DEFAULT_ADJ)) 0 500 500 1000 750 0 0 1000 750;
     ToBlob 1 "image/png" 1;
     CreateObjectURL (png 1) "blob:1";
     CreateElement "a" 2;
     Click 2 {| Anchor.download := [Lit "VISION-CUT-"; Num 1700000000000; Lit ".png"];
                Anchor.href := "blob:1" |};
     RevokeObjectURL "blob:1"].
Proof. vm_compute. reflexivity. Qed.

(** ** Running the handler on a page that holds the canvas *)

Lemma after_nothing k c w :
  dom w !! k = Some (CanvasEl c) -> after k c [] [] w = w.
Proof.
  intros H. destruct w as [d l t]. unfold after. cbn in *.
  rewrite (list_insert_id d k _ H), !app_nil_r. reflexivity.
Qed.

Lemma after_after k c1 e1 t1 c2 e2 t2 w :
  after k c2 e2 t2 (after k c1 e1 t1 w) = after k c2 (e1 ++ e2) (t1 ++ t2) w.
Proof.
  unfold after. cbn. rewrite list_insert_insert_eq, !app_assoc. reflexivity.
Qed.

Section Run.

Variables (k : nat) (w0 : World).
Hypothesis Hk : (k < length (dom w0))%nat.

Lemma lookup_after c evs ts :
  dom (after k c evs ts w0) !! k = Some (CanvasEl c).
Proof. cbn. apply list_lookup_insert_eq, Hk. Qed.

Lemma read_canvas_after c evs ts :
  read_canvas k (after k c evs ts w0) = (Returned c, after k c evs ts w0).
Proof.
  unfold read_canvas, bind, get_element. rewrite lookup_after. reflexivity.
Qed.

Lemma update_canvas_after f c evs ts :
  update_canvas k f (after k c evs ts w0)
  = (Returned tt, after k (f c) evs ts w0).
Proof.
  unfold update_canvas, bind. rewrite read_canvas_after.
  unfold set_element, after. cbn. rewrite list_insert_insert_eq. reflexivity.
Qed.

Lemma emit_after ev c evs ts :
  emit ev (after k c evs ts w0) = (Returned tt, after k c (evs ++ [ev]) ts w0).
Proof. unfold emit, after. cbn. rewrite app_assoc. reflexivity. Qed.

Lemma enqueue_after t c evs ts :
  enqueue t (after k c evs ts w0) = (Returned tt, after k c evs (ts ++ [t]) w0).
Proof. unfold enqueue, after. cbn. rewrite app_assoc. reflexivity. Qed.

Lemma set_width_after x c evs ts :
  set_width k x (after k c evs ts w0)
  = (Returned tt,
     after k {| Canvas.width := canvas_width_of x; Canvas.height := Canvas.height c;
                Canvas.filter := FilterNone; Canvas.fillStyle := FillDefault |}
           (evs ++ [SetWidth k x]) ts w0).
Proof. unfold set_width, bind. rewrite update_canvas_after. apply emit_after. Qed.

Lemma set_height_after x c evs ts :
  set_height k x (after k c evs ts w0)
  = (Returned tt,
     after k {| Canvas.width := Canvas.width c; Canvas.height := canvas_height_of x;
                Canvas.filter := FilterNone; Canvas.fillStyle := FillDefault |}
           (evs ++ [SetHeight k x]) ts w0).
Proof. unfold set_height, bind. rewrite update_canvas_after. apply emit_after. Qed.

Lemma set_filter_after f c evs ts :
  set_filter k f (after k c evs ts w0)
  = (Returned tt,
     after k {| Canvas.width := Canvas.width c; Canvas.height := Canvas.height c;
                Canvas.filter := f; Canvas.fillStyle := Canvas.fillStyle c |}
           evs ts w0).
Proof. apply update_canvas_after. Qed.

Lemma set_fillStyle_after s c evs ts :
  set_fillStyle k s (after k c evs ts w0)
  = (Returned tt,
     after k {| Canvas.width := Canvas.width c; Canvas.height := Canvas.height c;
                Canvas.filter := Canvas.filter c; Canvas.fillStyle := s |}
           evs ts w0).
Proof. apply update_canvas_after. Qed.

Lemma fillRect_after x y w h c evs ts :
  fillRect k x y w h (after k c evs ts w0)
  = (Returned tt,
     after k c (evs ++ [FillRect k (Canvas.filter c) (Canvas.fillStyle c) x y w h])
           ts w0).
Proof. unfold fillRect, bind. rewrite read_canvas_after. apply emit_after. Qed.

Lemma drawImage_after (h : Host) i sx sy sw sh dx dy dw dh c evs ts :
  drawImage h k i sx sy sw sh dx dy dw dh (after k c evs ts w0)
  = match drawImage_raises h with
    | Some e => (Raised e, after k c evs ts w0)
    | None =>
        (Returned tt,
         after k c
           (evs ++ [DrawImage k (Canvas.filter c) i sx sy sw sh dx dy dw dh])
           ts w0)
    end.
Proof.
  unfold drawImage. destruct (drawImage_raises h); [reflexivity|].
  unfold bind. rewrite read_canvas_after. apply emit_after.
Qed.

Lemma toBlob_after (h : Host) type q c evs ts :
  toBlob h k type q (after k c evs ts w0)
  = match toBlob_raises h with
    | Some e => (Raised e, after k c evs ts w0)
    | None =>
        (Returned tt,
         after k c (evs ++ [ToBlob k type q]) (ts ++ [BlobCallback k]) w0)
    end.
Proof.
  unfold toBlob. destruct (toBlob_raises h); [reflexivity|].
  unfold bind. rewrite emit_after. apply enqueue_after.
Qed.

End Run.

(** ** What an export leaves behind *)

Section MathMax.

Lemma Math_max_1_not_le_0 r : (Math_max 1 r <=? 0) = false.
Proof.
  unfold Math_max. change (is_nan 1) with false. cbn [orb].
  destruct (is_nan r); [reflexivity|].
  destruct (1 <? r) eqn:E1; [apply lt_1_not_le_0, E1|].
  destruct (r <? 1); [reflexivity|].
  change (get_sign 1) with false. reflexivity.
Qed.


Lemma Math_max_1_not_lt_0 r : lt (Math_max 1 r) 0 = false.
Proof.
  unfold lt. destruct (Math_max 1 r <? 0) eqn:E; [|reflexivity].
  apply lt_le in E. rewrite Math_max_1_not_le_0 in E. discriminate.
Qed.

End MathMax.

Section Exporting.

Variables (h : Host) (app : App.t) (w0 : World).
Variables (i k : nat) (image : Image.t) (c0 : Canvas.t).
Hypothesis Himg : App.imgRef app = Some i.
Hypothesis Hi : dom w0 !! i = Some (ImgEl image).
Hypothesis Hcan : App.downloadCanvasRef app = Some k.
Hypothesis Hc : dom w0 !! k = Some (CanvasEl c0).

Let region := sourceRegion image (App.completedCrop app).
Let adj := App.adj app.

Lemma canvas_in_dom : (k < length (dom w0))%nat.
Proof using Hc. exact (lookup_lt_Some _ _ _ Hc). Qed.

Lemma handleExport_sized :
  handleExport h app w0
  = try_catch (handleExport_try h k i region adj)
              (fun err => console_error "Export failed:" err)
              (after k (sized_canvas region adj) (sizing k region) [] w0).
Proof using Himg Hi Hcan Hc.
  pose proof canvas_in_dom as Hk.
  unfold handleExport. rewrite Himg, Hcan.
  unfold current_img, current_canvas, bind, get_element, ret.
  rewrite Hi, Hc. fold region. fold adj.
  rewrite <- (after_nothing k c0 w0 Hc) at 1.
  rewrite (set_width_after k w0 Hk).
  rewrite (set_height_after k w0 Hk).
  rewrite (set_filter_after k w0 Hk).
  reflexivity.
Qed.

Lemma bake_vignette_after v c evs ts :
  bake_vignette k v (after k c evs ts w0)
  = if gradient_args_finite (Canvas.width c) (Canvas.height c) v
    then (Returned tt,
          after k {| Canvas.width := Canvas.width c;
                     Canvas.height := Canvas.height c;
                     Canvas.filter := FilterNone;
                     Canvas.fillStyle :=
                       FillGradient
                         (vignette_gradient (Canvas.width c) (Canvas.height c) v) |}
                (evs ++ [FillRect k FilterNone
                           (FillGradient
                              (vignette_gradient (Canvas.width c) (Canvas.height c) v))
                           0 0 (Canvas.width c) (Canvas.height c)])
                ts w0)
    else (Raised TypeError, after k (unfiltered c) evs ts w0).
Proof using Hc.
  pose proof canvas_in_dom as Hk.
  unfold bake_vignette, bind.
  rewrite (set_filter_after k w0 Hk), (read_canvas_after k w0 Hk).
  cbn [Canvas.width Canvas.height].
  unfold createRadialGradient, gradient_args_finite.
  destruct (forallb is_finite _); cbn [negb]; [|reflexivity].
  rewrite Math_max_1_not_lt_0. change (lt 0 0) with false. cbn [orb].
  unfold ret. rewrite (set_fillStyle_after k w0 Hk), (fillRect_after k w0 Hk).
  reflexivity.
Qed.

(** The handler always returns, and leaves the world [exported]. *)
Lemma handleExport_exported :
  handleExport h app w0 = (Returned tt, exported h k i region adj w0).
Proof using Himg Hi Hcan Hc.
  pose proof canvas_in_dom as Hk.
  rewrite handleExport_sized. unfold try_catch, handleExport_try, bind, exported.
  rewrite (read_canvas_after k w0 Hk), (drawImage_after k w0 Hk).
  unfold console_error.
  destruct (drawImage_raises h) as [e|]; [apply (emit_after k w0)|].
  destruct (gt (Adj.vignette adj) 0).
  - rewrite bake_vignette_after.
    destruct (gradient_args_finite _ _ _); [|apply (emit_after k w0)].
    rewrite (toBlob_after k w0). unfold encoding.
    destruct (toBlob_raises h); [apply (emit_after k w0)|reflexivity].
  - unfold ret. rewrite (toBlob_after k w0). unfold encoding.
    destruct (toBlob_raises h); [apply (emit_after k w0)|reflexivity].
Qed.

End Exporting.

Lemma current_img_eq ref w : current_img ref w = (Returned (img_at ref (dom w)), w).
Proof. destruct ref; reflexivity. Qed.

Lemma current_canvas_eq ref w :
  current_canvas ref w = (Returned (canvas_at ref (dom w)), w).
Proof. destruct ref; reflexivity. Qed.

Lemma img_at_Some ref d i image :
  img_at ref d = Some (i, image) -> ref = Some i /\ d !! i = Some (ImgEl image).
Proof.
  destruct ref as [el|]; cbn; [|discriminate].
  destruct (d !! el) as [[| |]|] eqn:E; try discriminate.
  intros [= <- <-]. split; [reflexivity|exact E].
Qed.

Lemma canvas_at_Some ref d k :
  canvas_at ref d = Some k -> ref = Some k /\ exists c, d !! k = Some (CanvasEl c).
Proof.
  destruct ref as [el|]; cbn; [|discriminate].
  destruct (d !! el) as [[| c |]|] eqn:E; try discriminate.
  intros [= <-]. split; [reflexivity|exists c; exact E].
Qed.

(** Without the image or the canvas the handler returns at once:
    [if (!image || !canvas) return]. *)
Lemma handleExport_idle (h : Host) (app : App.t) (w : World) :
  img_at (App.imgRef app) (dom w) = None
  \/ canvas_at (App.downloadCanvasRef app) (dom w) = None ->
  handleExport h app w = (Returned tt, w).
Proof.
  intros H. unfold handleExport, bind.
  rewrite current_img_eq, current_canvas_eq.
  destruct H as [-> | ->]; [reflexivity|].
  destruct (img_at _ _) as [[? ?]|]; reflexivity.
Qed.

Lemma handleExport_returns (h : Host) (app : App.t) (w : World) :
  exists w', handleExport h app w = (Returned tt, w').
Proof.
  destruct (img_at (App.imgRef app) (dom w)) as [[i image]|] eqn:Ei.
  - destruct (canvas_at (App.downloadCanvasRef app) (dom w)) as [k|] eqn:Ek.
    + apply img_at_Some in Ei as [Himg Hi].
      apply canvas_at_Some in Ek as [Hcan [c0 Hc]].
      eexists. eapply handleExport_exported; eassumption.
    + exists w. apply handleExport_idle. right. exact Ek.
  - exists w. apply handleExport_idle. left. exact Ei.
Qed.

(** ** Facts about the exported world *)

Section Exported.

Variables (h : Host) (k i : nat) (region : SourceRegion) (adj : Adj.t).
Variable w0 : World.
Hypothesis Hk : (k < length (dom w0))%nat.

Ltac paths :=
  unfold exported, encoding;
  destruct (drawImage_raises h);
  [| destruct (gt (Adj.vignette adj) 0);
     [ destruct (gradient_args_finite _ _ _) |];
     destruct (toBlob_raises h) ].

(** On every path the canvas keeps the floored size it was given. *)
Lemma exported_canvas :
  exists c, dom (exported h k i region adj w0) !! k = Some (CanvasEl c)
            /\ Canvas.width c = target_width region
            /\ Canvas.height c = target_height region.
Proof using Hk.
  paths; eexists; (split; [apply lookup_after, Hk | split; reflexivity]).
Qed.

(** The log grows, and starts with the two size assignments. *)
Lemma exported_log :
  exists evs, log (exported h k i region adj w0)
              = log w0 ++ sizing k region ++ evs.
Proof.
  paths; cbn [log after]; rewrite <- ?app_assoc; eexists; reflexivity.
Qed.

Lemma exported_drawn :
  drawImage_raises h = None ->
  In (drawing k i region adj) (log (exported h k i region adj w0)).
Proof.
  intros Hd. unfold exported, encoding. rewrite Hd.
  destruct (gt (Adj.vignette adj) 0);
    [ destruct (gradient_args_finite _ _ _) |];
    destruct (toBlob_raises h); cbn [log after];
    rewrite !in_app_iff; cbn; tauto.
Qed.

(** No element is added to the document, and only [k] changes. *)
Lemma exported_dom :
  exists c, dom (exported h k i region adj w0) = <[k := CanvasEl c]> (dom w0).
Proof. paths; eexists; reflexivity. Qed.

(** With the vignette on and a gradient that can be made, the
    gradient is painted over the whole canvas, with no filter. *)
Lemma exported_painted :
  drawImage_raises h = None ->
  gt (Adj.vignette adj) 0 = true ->
  gradient_args_finite (target_width region) (target_height region)
                       (Adj.vignette adj) = true ->
  In (painting k region adj) (log (exported h k i region adj w0)).
Proof.
  intros Hd Hv Hf. unfold exported, encoding. rewrite Hd, Hv.
  cbn [sized_canvas Canvas.width Canvas.height]. rewrite Hf.
  destruct (toBlob_raises h); cbn [log after];
    rewrite !in_app_iff; cbn; tauto.
Qed.

(** With the vignette off nothing is painted. *)
Lemma exported_unpainted f s x y w' h' :
  gt (Adj.vignette adj) 0 = false ->
  In (FillRect k f s x y w' h') (log (exported h k i region adj w0)) ->
  In (FillRect k f s x y w' h') (log w0).
Proof.
  intros Hv. unfold exported, encoding. rewrite Hv.
  destruct (drawImage_raises h); [|destruct (toBlob_raises h)];
    cbn [log after]; rewrite !in_app_iff; unfold sizing, drawing; cbn [In];
    intros H; decompose [or] H; try discriminate; try contradiction; assumption.
Qed.

(** An error in the log was raised by drawing, by the gradient or by
    the encoder. *)
Lemma exported_errors msg e :
  In (ConsoleError msg e) (log (exported h k i region adj w0)) ->
  In (ConsoleError msg e) (log w0)
  \/ drawImage_raises h = Some e
  \/ toBlob_raises h = Some e
  \/ (e = TypeError
      /\ gt (Adj.vignette adj) 0 = true
      /\ gradient_args_finite (target_width region) (target_height region)
                              (Adj.vignette adj) = false).
Proof.
  unfold exported, encoding.
  destruct (drawImage_raises h) as [e1|];
    [| destruct (gt (Adj.vignette adj) 0);
       [ destruct (gradient_args_finite _ _ _) eqn:Ef |];
       destruct (toBlob_raises h) as [e2|] ];
    cbn [log after sized_canvas Canvas.width Canvas.height] in *;
    rewrite ?in_app_iff; cbn [In]; unfold sizing, drawing, painting;
    intros H; decompose [or] H; try discriminate; try contradiction;
    try (left; assumption);
    repeat match goal with
           | H : ConsoleError _ _ = ConsoleError _ _ |- _ =>
               injection H as <- <-
           | H : In _ [_; _] |- _ => cbn [In] in H; decompose [or] H; clear H
           end;
    try discriminate; try contradiction; auto 6.
Qed.

End Exported.


(** The handler reads the committed crop only through [sourceRegion]. *)
Lemma handleExport_region_ext (h : Host) (app1 app2 : App.t) (w : World) :
  App.imgRef app1 = App.imgRef app2 ->
  App.downloadCanvasRef app1 = App.downloadCanvasRef app2 ->
  App.adj app1 = App.adj app2 ->
  (forall image, sourceRegion image (App.completedCrop app1)
                 = sourceRegion image (App.completedCrop app2)) ->
  handleExport h app1 w = handleExport h app2 w.
Proof.
  intros Hi Hc Ha Hr. unfold handleExport, bind.
  rewrite Hi, Hc, Ha.
  destruct (current_img (App.imgRef app2) w) as [[[[i image]|]|e] w1]; try reflexivity.
  destruct (current_canvas (App.downloadCanvasRef app2) w1) as [[[k|]|e] w2];
    try reflexivity.
  rewrite (Hr image). reflexivity.
Qed.

(** ** Integers as numbers, and what a canvas stores *)

Lemma digits2_pos_iter (p k : positive) :
  digits2_pos (Pos.iter xO p k) = (digits2_pos p + k)%positive.
Proof.
  induction k as [|k IH] using Pos.peano_ind.
  - cbn. lia.
  - rewrite Pos.iter_succ. cbn [digits2_pos]. rewrite IH. lia.
Qed.

Lemma Zpos_iter_xO (p k : positive) :
  (Z.pos (Pos.iter xO p k) = Z.pos p * 2 ^ Z.pos k)%Z.
Proof.
  induction k as [|k IH] using Pos.peano_ind.
  - cbn. lia.
  - rewrite Pos.iter_succ, Pos2Z.inj_xO, IH, Pos2Z.inj_succ, Z.pow_succ_r by lia. lia.
Qed.

Lemma fexp_small (d : Z) : (1 <= d)%Z -> fexp prec emax d = (d - 53)%Z.
Proof. intros H. unfold fexp, SpecFloat.emin, prec, emax. lia. Qed.

(** An integer of at most 53 binary digits is represented exactly, with
    its digits moved up to fill the mantissa. *)
Lemma binary_round_small (p k : positive) :
  (Z.pos (digits2_pos p) - 53 = Z.neg k)%Z ->
  binary_round prec emax false p 0 = S754_finite false (Pos.iter xO p k) (Z.neg k).
Proof.
  intros Hk.
  assert (Hd : (Z.pos (digits2_pos (Pos.iter xO p k)) + Z.neg k
                = Z.pos (digits2_pos p))%Z)
    by (rewrite digits2_pos_iter; lia).
  assert (Hf : fexp prec emax (Z.pos (digits2_pos p)) = Z.neg k)
    by (rewrite fexp_small, Hk by lia; reflexivity).
  assert (E : (Z.neg k <=? emax - prec)%Z = true)
    by (apply Z.leb_le; unfold emax, prec; lia).
  unfold binary_round.
  rewrite Z.add_0_r, Hf.
  unfold shl_align. rewrite Z.sub_0_r.
  unfold binary_round_aux, shr_fexp, Zdigits2.
  rewrite Hd, Hf, Z.sub_diag.
  cbn [shr shr_record_of_loc shr_m loc_of_shr_record round_nearest_even].
  rewrite Hd, Hf, Z.sub_diag.
  cbn [shr shr_record_of_loc shr_m].
  rewrite E. reflexivity.
Qed.

Lemma digits2_pos_size (p : positive) : digits2_pos p = Pos.size p.
Proof. induction p; cbn; congruence. Qed.

Lemma digits_bound (p n : positive) :
  (Z.pos p < 2 ^ Z.pos n)%Z -> (Z.pos (digits2_pos p) <= Z.pos n)%Z.
Proof.
  intros H. rewrite digits2_pos_size.
  destruct (Z.le_gt_cases (Z.pos (Pos.size p)) (Z.pos n)) as [Hle|Hgt]; [exact Hle|].
  exfalso.
  pose proof (Pos.size_le p) as Hs.
  assert (H2 : (2 ^ Z.pos (Pos.size p) <= 2 * Z.pos p)%Z).
  { change 2%Z with (Z.pos 2) at 1. rewrite <- Pos2Z.inj_pow.
    change (2 * Z.pos p)%Z with (Z.pos (p~0)). apply Pos2Z.pos_le_pos. exact Hs. }
  assert (H3 : (2 ^ (Z.pos n + 1) <= 2 ^ Z.pos (Pos.size p))%Z)
    by (apply Z.pow_le_mono_r; lia).
  rewrite Z.pow_add_r in H3 by lia. lia.
Qed.

Lemma Prim2SF_of_Z_pos (p : positive) :
  (Z.pos p <= 2147483647)%Z ->
  exists k, Prim2SF (of_Z (Z.pos p)) = S754_finite false (Pos.iter xO p k) (Z.neg k).
Proof.
  intros Hp. unfold of_Z.
  rewrite of_uint63_spec, Uint63.of_Z_spec.
  assert (HwB : Uint63.wB = 9223372036854775808%Z) by reflexivity.
  rewrite Z.mod_small by lia.
  assert (Hd : (Z.pos (digits2_pos p) <= 31)%Z)
    by (apply digits_bound; change (2 ^ 31)%Z with 2147483648%Z; lia).
  exists (Z.to_pos (53 - Z.pos (digits2_pos p))).
  cbn [binary_normalize]. apply binary_round_small. lia.
Qed.

Lemma small_shiftr (p k : positive) :
  Z.shiftr (Z.pos (Pos.iter xO p k)) (- Z.neg k) = Z.pos p.
Proof.
  rewrite Zpos_iter_xO. change (- Z.neg k)%Z with (Z.pos k).
  rewrite Z.shiftr_div_pow2 by lia. apply Z.div_mul. lia.
Qed.

(** Every integer from 0 to 2147483647 survives the conversion, is its
    own floor, and is a size a canvas holds unchanged. *)
Lemma ToUint32_of_Z (q : Z) :
  (0 <= q <= 2147483647)%Z -> ToUint32 (of_Z q) = q.
Proof.
  intros Hq. destruct q as [|p|p]; [vm_compute; reflexivity| |lia].
  destruct (Prim2SF_of_Z_pos p ltac:(lia)) as (k & Hk).
  unfold ToUint32. rewrite Hk.
  change (0 <=? Z.neg k)%Z with false. cbn iota.
  rewrite small_shiftr. apply Z.mod_small. lia.
Qed.

Lemma Math_floor_of_Z (q : Z) :
  (0 <= q <= 2147483647)%Z -> Math_floor (of_Z q) = of_Z q.
Proof.
  intros Hq. destruct q as [|p|p]; [vm_compute; reflexivity| |lia].
  destruct (Prim2SF_of_Z_pos p ltac:(lia)) as (k & Hk).
  unfold Math_floor. rewrite Hk.
  change (0 <=? Z.neg k)%Z with false. cbn iota.
  rewrite small_shiftr. reflexivity.
Qed.

Lemma reflect_unsigned_long_of_Z (default q : Z) :
  (0 <= q <= 2147483647)%Z -> reflect_unsigned_long default (of_Z q) = of_Z q.
Proof.
  intros Hq. unfold reflect_unsigned_long. rewrite (ToUint32_of_Z q Hq).
  destruct (Z.leb_spec q 2147483647); [reflexivity|lia].
Qed.

Lemma canvas_width_of_integer (x : number) (q : Z) :
  (0 <= q <= 2147483647)%Z -> x = of_Z q -> canvas_width_of x = x.
Proof. intros Hq ->. apply reflect_unsigned_long_of_Z, Hq. Qed.

Lemma canvas_height_of_integer (x : number) (q : Z) :
  (0 <= q <= 2147483647)%Z -> x = of_Z q -> canvas_height_of x = x.
Proof. intros Hq ->. apply reflect_unsigned_long_of_Z, Hq. Qed.

(** ** The coordinate mapping of a committed crop *)

(** C1. A committed crop with [width > 0] and [height > 0] resolves to
    the source region [x * scaleX], [y * scaleY], [width * scaleX],
    [height * scaleY], where [scaleX = naturalWidth / width] and
    [scaleY = naturalHeight / height] of the image. The export assigns
    [Math.floor] of the region's width and height to the canvas; the
    canvas holds what an [unsigned long] attribute keeps of them, on
    every path, and the image is drawn onto a destination of the size
    read back from the canvas. Whenever the floored value is an integer
    from 0 to 2147483647 the canvas holds exactly that value. For the
    4000x3000 image shown at 800x600 and the crop
    [{x:100, y:100, width:200, height:150}] the region is
    [{x:500, y:500, width:1000, height:750}] and the canvas 1000x750; a
    width of 333.33 and a height of 666.67 become 333 and 666; for an
    image displayed at width 0 the floored width is infinite and the
    canvas is 0 wide. *)
Theorem valid_crop_source_region (image : Image.t) (c : Crop.t) :
  gt (Crop.width c) 0 = true ->
  gt (Crop.height c) 0 = true ->
  let sx := Image.naturalWidth image / Image.width image in
  let sy := Image.naturalHeight image / Image.height image in
  let region := sourceRegion image (Some c) in
  region = {| sourceX := Crop.x c * sx; sourceY := Crop.y c * sy;
              sourceWidth := Crop.width c * sx;
              sourceHeight := Crop.height c * sy |}
  /\ (forall (h : Host) (app : App.t) (w : World) (i k : nat) (c0 : Canvas.t),
        App.completedCrop app = Some c ->
        App.imgRef app = Some i -> dom w !! i = Some (ImgEl image) ->
        App.downloadCanvasRef app = Some k -> dom w !! k = Some (CanvasEl c0) ->
        exists w' c' evs,
          handleExport h app w = (Returned tt, w')
          /\ log w' = log w ++ [SetWidth k (Math_floor (Crop.width c * sx));
                                SetHeight k (Math_floor (Crop.height c * sy))] ++ evs
          /\ dom w' !! k = Some (CanvasEl c')
          /\ Canvas.width c' = canvas_width_of (Math_floor (Crop.width c * sx))
          /\ Canvas.height c' = canvas_height_of (Math_floor (Crop.height c * sy))
          /\ (forall q : Z,
                (0 <= q <= 2147483647)%Z ->
                Math_floor (Crop.width c * sx) = of_Z q ->
                Canvas.width c' = Math_floor (Crop.width c * sx))
          /\ (forall q : Z,
                (0 <= q <= 2147483647)%Z ->
                Math_floor (Crop.height c * sy) = of_Z q ->
                Canvas.height c' = Math_floor (Crop.height c * sy))
          /\ (drawImage_raises h = None ->
              In (DrawImage k (FilterOf (ctx_filter (App.adj app))) i
                    (Crop.x c * sx) (Crop.y c * sy)
                    (Crop.width c * sx) (Crop.height c * sy)
                    0 0 (Canvas.width c') (Canvas.height c'))
                 (log w')))
  /\ sourceRegion image_4000x3000 (Some crop_200x150)
     = {| sourceX := 500; sourceY := 500; sourceWidth := 1000; sourceHeight := 750 |}
  /\ target_width (sourceRegion image_4000x3000 (Some crop_200x150)) = 1000
  /\ target_height (sourceRegion image_4000x3000 (Some crop_200x150)) = 750
  /\ Math_floor (sourceWidth (sourceRegion image_1000x1000 (Some crop_100x200))) = 333
  /\ Math_floor (sourceHeight (sourceRegion image_1000x1000 (Some crop_100x200))) = 666
  /\ target_width (sourceRegion image_1000x1000 (Some crop_100x200)) = 333
  /\ target_height (sourceRegion image_1000x1000 (Some crop_100x200)) = 666
  /\ Math_floor (sourceWidth (sourceRegion image_shown_at_0 (Some crop_200x150)))
     = infinity
  /\ target_width (sourceRegion image_shown_at_0 (Some crop_200x150)) = 0.
Proof.
  intros Hw Hh sx sy region.
  assert (Hregion : region = {| sourceX := Crop.x c * sx; sourceY := Crop.y c * sy;
                                sourceWidth := Crop.width c * sx;
                                sourceHeight := Crop.height c * sy |}).
  { unfold region, sourceRegion, isCropValid. rewrite Hw, Hh. reflexivity. }
  split; [exact Hregion|]. split.
  - intros h app w i k c0 Hcrop Himg Hi Hcan Hc.
    pose proof (lookup_lt_Some _ _ _ Hc) as Hk.
    pose proof (handleExport_exported h app w i k image c0 Himg Hi Hcan Hc) as Hrun.
    rewrite Hcrop in Hrun. fold region in Hrun.
    clearbody region. subst region.
    set (R := {| sourceX := Crop.x c * sx; sourceY := Crop.y c * sy;
                 sourceWidth := Crop.width c * sx;
                 sourceHeight := Crop.height c * sy |}) in *.
    destruct (exported_canvas h k i R (App.adj app) w Hk) as (c' & Hc' & Hcw & Hch).
    destruct (exported_log h k i R (App.adj app) w) as (evs & Hlog).
    exists (exported h k i R (App.adj app) w), c', evs.
    split; [exact Hrun|]. split; [exact Hlog|]. split; [exact Hc'|].
    split; [exact Hcw|]. split; [exact Hch|].
    split; [intros q Hq E; rewrite Hcw; unfold target_width, canvas_width_of;
            cbn [sourceWidth R]; rewrite E;
            apply reflect_unsigned_long_of_Z, Hq|].
    split; [intros q Hq E; rewrite Hch; unfold target_height, canvas_height_of;
            cbn [sourceHeight R]; rewrite E;
            apply reflect_unsigned_long_of_Z, Hq|].
    rewrite Hcw, Hch.
    exact (exported_drawn h k i R (App.adj app) w).
  - repeat split; vm_compute; reflexivity.
Qed.

Lemma valid_crop_source_region_witness :
  gt (Crop.width crop_200x150) 0 = true
  /\ gt (Crop.height crop_200x150) 0 = true
  /\ sourceRegion image_4000x3000 (Some crop_200x150)
     = {| sourceX := 500; sourceY := 500; sourceWidth := 1000; sourceHeight := 750 |}
  /\ exists w' c',
       handleExport host_ok (app0 (Some crop_200x150) DEFAULT_ADJ)
                    (page image_4000x3000) = (Returned tt, w')
       /\ dom w' !! 1%nat = Some (CanvasEl c')
       /\ Canvas.width c' = 1000 /\ Canvas.height c' = 750.
Proof.
  split; [reflexivity|]. split; [reflexivity|].
  destruct (valid_crop_source_region image_4000x3000 crop_200x150 eq_refl eq_refl)
    as (Hregion & Hexport & _).
  split; [exact Hregion|].
  destruct (Hexport host_ok (app0 (Some crop_200x150) DEFAULT_ADJ)
              (page image_4000x3000) 0%nat 1%nat blank_canvas
              eq_refl eq_refl eq_refl eq_refl eq_refl)
    as (w' & c' & evs & Hrun & _ & Hc' & _ & _ & Hw & Hh & _).
  exists w', c'. split; [exact Hrun|]. split; [exact Hc'|]. split.
  - exact (Hw 1000%Z ltac:(lia) eq_refl).
  - exact (Hh 750%Z ltac:(lia) eq_refl).
Defined.

(** ** Export without a crop *)

Lemma invalid_crop_not_valid completedCrop :
  invalid_crop completedCrop -> isCropValid completedCrop = false.
Proof.
  destruct completedCrop as [c|]; [|reflexivity].
  unfold invalid_crop, isCropValid.
  intros [H|H]; rewrite (le_0_not_gt_0 _ H); [reflexivity|].
  apply andb_false_r.
Qed.

Lemma invalid_crop_region image completedCrop :
  invalid_crop completedCrop -> sourceRegion image completedCrop = whole_image image.
Proof.
  intros H. apply invalid_crop_not_valid in H.
  destruct completedCrop as [c|]; [|reflexivity].
  unfold sourceRegion. rewrite H. reflexivity.
Qed.

(** C2. A committed crop that is absent or has [width <= 0] or
    [height <= 0] resolves to the whole natural image
    [{x:0, y:0, width:naturalWidth, height:naturalHeight}]. The export
    then is the export without a crop: the handler does exactly what it
    does when no crop is committed, it returns normally, assigns the
    floored natural size to the canvas and draws the whole image onto
    the size the canvas then has, which is the floored natural size
    itself whenever the natural width and height are integers from 0 to
    2147483647; an error in its log can only come from a call that
    raised while drawing, painting the vignette or encoding. *)
Theorem invalid_crop_exports_whole_image (image : Image.t)
    (completedCrop : option Crop.t) :
  invalid_crop completedCrop ->
  sourceRegion image completedCrop
  = {| sourceX := 0; sourceY := 0;
       sourceWidth := Image.naturalWidth image;
       sourceHeight := Image.naturalHeight image |}
  /\ (forall (h : Host) (app : App.t) (w : World),
        App.completedCrop app = completedCrop ->
        handleExport h app w = handleExport h (App.setCompletedCrop None app) w)
  /\ (forall (h : Host) (app : App.t) (w : World) (i k : nat) (c0 : Canvas.t),
        App.completedCrop app = completedCrop ->
        App.imgRef app = Some i -> dom w !! i = Some (ImgEl image) ->
        App.downloadCanvasRef app = Some k -> dom w !! k = Some (CanvasEl c0) ->
        exists w' evs,
          handleExport h app w = (Returned tt, w')
          /\ log w' = log w ++ [SetWidth k (Math_floor (Image.naturalWidth image));
                                SetHeight k (Math_floor (Image.naturalHeight image))]
                            ++ evs
          /\ (drawImage_raises h = None ->
              In (DrawImage k (FilterOf (ctx_filter (App.adj app))) i
                    0 0 (Image.naturalWidth image) (Image.naturalHeight image)
                    0 0
                    (canvas_width_of (Math_floor (Image.naturalWidth image)))
                    (canvas_height_of (Math_floor (Image.naturalHeight image))))
                 (log w'))
          /\ (forall qw qh : Z,
                (0 <= qw <= 2147483647)%Z -> (0 <= qh <= 2147483647)%Z ->
                Image.naturalWidth image = of_Z qw ->
                Image.naturalHeight image = of_Z qh ->
                drawImage_raises h = None ->
                In (DrawImage k (FilterOf (ctx_filter (App.adj app))) i
                      0 0 (Image.naturalWidth image) (Image.naturalHeight image)
                      0 0
                      (Math_floor (Image.naturalWidth image))
                      (Math_floor (Image.naturalHeight image)))
                   (log w')
                /\ Math_floor (Image.naturalWidth image) = Image.naturalWidth image
                /\ Math_floor (Image.naturalHeight image) = Image.naturalHeight image)
          /\ (forall msg e,
                In (ConsoleError msg e) (log w') ->
                In (ConsoleError msg e) (log w)
                \/ drawImage_raises h = Some e
                \/ toBlob_raises h = Some e
                \/ (e = TypeError
                    /\ gt (Adj.vignette (App.adj app)) 0 = true
                    /\ gradient_args_finite
                         (canvas_width_of (Math_floor (Image.naturalWidth image)))
                         (canvas_height_of (Math_floor (Image.naturalHeight image)))
                         (Adj.vignette (App.adj app)) = false))).
Proof.
  intros Hinv. split; [apply invalid_crop_region, Hinv|]. split.
  - intros h app w Hcrop. apply handleExport_region_ext; try reflexivity.
    intros image'. rewrite Hcrop. cbn [App.completedCrop App.setCompletedCrop].
    apply invalid_crop_region, Hinv.
  - intros h app w i k c0 Hcrop Himg Hi Hcan Hc.
    pose proof (handleExport_exported h app w i k image c0 Himg Hi Hcan Hc) as Hrun.
    rewrite Hcrop, (invalid_crop_region image _ Hinv) in Hrun.
    destruct (exported_log h k i (whole_image image) (App.adj app) w)
      as (evs & Hlog).
    exists (exported h k i (whole_image image) (App.adj app) w), evs.
    split; [exact Hrun|]. split; [exact Hlog|]. split; [|split].
    + exact (exported_drawn h k i (whole_image image) (App.adj app) w).
    + intros qw qh Hqw Hqh Ew Eh Hd.
      pose proof (exported_drawn h k i (whole_image image) (App.adj app) w Hd)
        as Hin.
      unfold drawing, target_width, target_height, canvas_width_of,
        canvas_height_of in Hin.
      cbn [whole_image sourceX sourceY sourceWidth sourceHeight] in Hin.
      rewrite Ew, Eh in Hin |- *.
      rewrite !Math_floor_of_Z in Hin |- * by assumption.
      rewrite !reflect_unsigned_long_of_Z in Hin by assumption.
      split; [exact Hin|]. split; reflexivity.
    + exact (exported_errors h k i (whole_image image) (App.adj app) w).
Qed.

Lemma invalid_crop_exports_whole_image_witness :
  invalid_crop (Some crop_0x150)
  /\ sourceRegion image_4000x3000 (Some crop_0x150)
     = {| sourceX := 0; sourceY := 0; sourceWidth := 4000; sourceHeight := 3000 |}
  /\ exists w',
       handleExport host_ok (app0 (Some crop_0x150) DEFAULT_ADJ)
                    (page image_4000x3000) = (Returned tt, w')
       /\ In (DrawImage 1 (FilterOf (ctx_filter DEFAULT_ADJ)) 0
                0 0 4000 3000 0 0 4000 3000)
             (log w').
Proof.
  assert (H : invalid_crop (Some crop_0x150)) by (left; reflexivity).
  split; [exact H|].
  destruct (invalid_crop_exports_whole_image image_4000x3000 (Some crop_0x150) H)
    as (Hregion & _ & Hexport).
  split; [exact Hregion|].
  destruct (Hexport host_ok (app0 (Some crop_0x150) DEFAULT_ADJ)
              (page image_4000x3000) 0%nat 1%nat blank_canvas
              eq_refl eq_refl eq_refl eq_refl eq_refl)
    as (w' & evs & Hrun & _ & _ & Hint & _).
  exists w'. split; [exact Hrun|].
  exact (proj1 (Hint 4000%Z 3000%Z ltac:(lia) ltac:(lia) eq_refl eq_refl eq_refl)).
Defined.

(** ** Failures of the export *)

Lemma click_download_eq (h : Host) (app : App.t) (w w1 : World) :
  handleExport h app w = (Returned tt, w1) ->
  click_download h app w
  = run_tasks h (tasks w1) {| dom := dom w1; log := log w1; tasks := [] |}.
Proof.
  intros H. unfold click_download, bind. rewrite H. reflexivity.
Qed.

Lemma run_tasks_null (h : Host) (ts : list Task) (w : World) :
  encoded h = None -> run_tasks h ts w = (Returned tt, w).
Proof.
  intros Hnull. induction ts as [|[c] ts IH]; [reflexivity|].
  cbn [run_tasks run_task]. unfold bind. rewrite Hnull. exact IH.
Qed.

(** C3. When [drawImage] raises during an export, the handler catches
    the exception: it returns normally, the only events after the two
    size assignments are the message "Export failed:" with the exception
    on the console, [toBlob] is not called, no callback is queued and no
    element is added to the document; so the click ends there, with no
    object URL, no link and no download. *)
Theorem draw_failure_is_caught (h : Host) (app : App.t) (w : World)
    (i k : nat) (image : Image.t) (c0 : Canvas.t) (e : Exn) :
  App.imgRef app = Some i -> dom w !! i = Some (ImgEl image) ->
  App.downloadCanvasRef app = Some k -> dom w !! k = Some (CanvasEl c0) ->
  drawImage_raises h = Some e ->
  let region := sourceRegion image (App.completedCrop app) in
  exists w',
    handleExport h app w = (Returned tt, w')
    /\ log w' = log w ++ [SetWidth k (Math_floor (sourceWidth region));
                          SetHeight k (Math_floor (sourceHeight region));
                          ConsoleError "Export failed:" e]
    /\ tasks w' = tasks w
    /\ length (dom w') = length (dom w)
    /\ (tasks w = [] -> click_download h app w = (Returned tt, w')).
Proof.
  intros Himg Hi Hcan Hc Hd region.
  pose proof (handleExport_exported h app w i k image c0 Himg Hi Hcan Hc) as Hrun.
  fold region in Hrun. unfold exported in Hrun. rewrite Hd in Hrun.
  eexists. split; [exact Hrun|].
  cbn [log tasks dom after]. split; [reflexivity|].
  split; [apply app_nil_r|]. split; [apply length_insert|].
  intros Hts. rewrite (click_download_eq _ _ _ _ Hrun).
  unfold after. cbn [log tasks dom]. rewrite Hts. reflexivity.
Qed.

Lemma draw_failure_is_caught_witness :
  exists w',
    click_download host_draw_fails (app0 (Some crop_200x150) DEFAULT_ADJ)
                   (page image_4000x3000) = (Returned tt, w')
    /\ log w' = [SetWidth 1 1000; SetHeight 1 750;
                 ConsoleError "Export failed:" InvalidStateError].
Proof.
  destruct (draw_failure_is_caught host_draw_fails (app0 (Some crop_200x150) DEFAULT_ADJ)
              (page image_4000x3000) 0 1 image_4000x3000 blank_canvas InvalidStateError
              eq_refl eq_refl eq_refl eq_refl eq_refl)
    as (w' & _ & Hlog & _ & _ & Hclick).
  exists w'. split; [exact (Hclick eq_refl)|exact Hlog].
Defined.

(** C10. When the encoder hands [null] to the callback of [toBlob], the
    callback returns at once: the world after the click is the world the
    handler left, so no object URL is made, no link is created or
    clicked, nothing is logged and nothing is raised. *)
Theorem null_blob_is_silent (h : Host) (app : App.t) (w : World) :
  encoded h = None -> tasks w = [] ->
  (forall w1, toBlob_callback h (encoded h) w1 = (Returned tt, w1))
  /\ exists w1,
       handleExport h app w = (Returned tt, w1)
       /\ click_download h app w
          = (Returned tt, {| dom := dom w1; log := log w1; tasks := [] |}).
Proof.
  intros Hnull Hts. split.
  - intros w1. rewrite Hnull. reflexivity.
  - destruct (handleExport_returns h app w) as (w1 & Hrun).
    exists w1. split; [exact Hrun|].
    rewrite (click_download_eq _ _ _ _ Hrun). apply run_tasks_null, Hnull.
Qed.

Lemma null_blob_is_silent_witness :
  exists w1,
    handleExport host_no_blob (app0 None DEFAULT_ADJ) (page image_4000x3000)
    = (Returned tt, w1)
    /\ tasks w1 = [BlobCallback 1]
    /\ click_download host_no_blob (app0 None DEFAULT_ADJ) (page image_4000x3000)
       = (Returned tt, {| dom := dom w1; log := log w1; tasks := [] |}).
Proof.
  destruct (null_blob_is_silent host_no_blob (app0 None DEFAULT_ADJ)
              (page image_4000x3000) eq_refl eq_refl) as (_ & w1 & Hrun & Hclick).
  exists w1. split; [exact Hrun|]. split; [|exact Hclick].
  assert (E : snd (handleExport host_no_blob (app0 None DEFAULT_ADJ)
                     (page image_4000x3000)) = w1) by (rewrite Hrun; reflexivity).
  rewrite <- E. vm_compute. reflexivity.
Defined.

(** ** The filter: temperature, and preview against export *)

Lemma in_range_trichotomy (t : number) :
  (-100 <=? t) = true ->
  gt t 0 = true \/ lt t 0 = true \/ (t =? 0) = true.
Proof.
  unfold gt, lt. rewrite leb_spec, !ltb_spec, FloatAxioms.eqb_spec.
  unfold SFleb, SFltb, SFeqb.
  destruct (Prim2SF t) as [[|]|[|]| |[|] m e]; cbn; auto; discriminate.
Qed.

(** C4. For a temperature [t] in [-100, 100] the filter of the export
    is brightness, contrast, saturate, sepia and hue-rotate in that
    order, where: if [t > 0] the sepia amount is [t] and the hue rotation
    is [0]; if [t < 0] the hue rotation is [t * 1.5] degrees and the
    sepia amount is [0]; if [t = 0] both are [0]. One of the three cases
    holds. *)
Theorem temperature_decomposition (adj : Adj.t) :
  let t := Adj.temperature adj in
  (-100 <=? t) = true -> (t <=? 100) = true ->
  exists s d : number,
    ctx_filter adj
    = [Lit "brightness("; Num (Adj.brightness adj);
       Lit "%) contrast("; Num (Adj.contrast adj);
       Lit "%) saturate("; Num (Adj.saturation adj);
       Lit "%) sepia("; Num s; Lit "%) hue-rotate("; Num d; Lit "deg)"]
    /\ (gt t 0 = true -> s = t /\ d = 0)
    /\ (lt t 0 = true -> d = t * 1.5 /\ s = 0)
    /\ ((t =? 0) = true -> s = 0 /\ d = 0)
    /\ (gt t 0 = true \/ lt t 0 = true \/ (t =? 0) = true).
Proof.
  intros t Hlo Hhi. exists (sepia t), (hue t).
  split; [reflexivity|]. unfold sepia, hue.
  split; [|split; [|split]].
  - intros H. rewrite H, (gt_0_not_lt_0 t H). split; reflexivity.
  - intros H. rewrite H, (lt_0_not_gt_0 t H). split; reflexivity.
  - intros H. rewrite (eq_0_not_gt_0 t H), (eq_0_not_lt_0 t H). split; reflexivity.
  - apply in_range_trichotomy, Hlo.
Qed.

Lemma temperature_decomposition_witness :
  ctx_filter (set_temperature (-40) DEFAULT_ADJ)
  = [Lit "brightness("; Num 100; Lit "%) contrast("; Num 100;
     Lit "%) saturate("; Num 100; Lit "%) sepia("; Num 0;
     Lit "%) hue-rotate("; Num (-60); Lit "deg)"]
  /\ ctx_filter (set_temperature 35 DEFAULT_ADJ)
     = [Lit "brightness("; Num 100; Lit "%) contrast("; Num 100;
        Lit "%) saturate("; Num 100; Lit "%) sepia("; Num 35;
        Lit "%) hue-rotate("; Num 0; Lit "deg)"].
Proof.
  split.
  - destruct (temperature_decomposition (set_temperature (-40) DEFAULT_ADJ)
                eq_refl eq_refl) as (s & d & Hf & _ & Hcool & _).
    destruct (Hcool eq_refl) as [Hd Hs]. rewrite Hf, Hd, Hs. reflexivity.
  - destruct (temperature_decomposition (set_temperature 35 DEFAULT_ADJ)
                eq_refl eq_refl) as (s & d & Hf & Hwarm & _).
    destruct (Hwarm eq_refl) as [Hs Hd]. rewrite Hf, Hd, Hs. reflexivity.
Defined.

(** C5. For every adjustment set the filter on the preview image is
    the filter the export draws through: the same template, hence the
    same string under any printing of numbers; an export whose drawing
    succeeds logs a [drawImage] under exactly the filter the rendered
    workspace shows. *)
Theorem preview_filter_is_export_filter (adj : Adj.t) :
  img_style_filter adj = ctx_filter adj
  /\ (forall Number_toString : number -> string,
        render Number_toString (img_style_filter adj)
        = render Number_toString (ctx_filter adj))
  /\ (forall (h : Host) (app : App.t) (w : World) (i k : nat)
             (image : Image.t) (c0 : Canvas.t) (ws : Workspace),
        App.adj app = adj ->
        App.imgRef app = Some i -> dom w !! i = Some (ImgEl image) ->
        App.downloadCanvasRef app = Some k -> dom w !! k = Some (CanvasEl c0) ->
        render_workspace app = Some ws ->
        drawImage_raises h = None ->
        exists w' sx sy sw sh dw dh,
          handleExport h app w = (Returned tt, w')
          /\ In (DrawImage k (FilterOf (img_filter ws)) i sx sy sw sh 0 0 dw dh)
                (log w')).
Proof.
  split; [reflexivity|]. split; [reflexivity|].
  intros h app w i k image c0 ws Hadj Himg Hi Hcan Hc Hws Hd.
  pose proof (handleExport_exported h app w i k image c0 Himg Hi Hcan Hc) as Hrun.
  pose proof (exported_drawn h k i (sourceRegion image (App.completedCrop app))
                (App.adj app) w Hd) as Hin.
  unfold render_workspace in Hws.
  destruct (String.eqb (App.imgSrc app) ""); [discriminate|].
  injection Hws as <-. cbn [img_filter].
  do 7 eexists. split; [exact Hrun|exact Hin].
Qed.

Lemma preview_filter_is_export_filter_witness :
  exists w',
    handleExport host_ok (app0 None (set_temperature (-40) DEFAULT_ADJ))
                 (page image_4000x3000) = (Returned tt, w')
    /\ In (DrawImage 1 (FilterOf (img_style_filter (set_temperature (-40) DEFAULT_ADJ)))
             0 0 0 4000 3000 0 0 4000 3000) (log w').
Proof.
  destruct (proj2 (proj2 (preview_filter_is_export_filter
                            (set_temperature (-40) DEFAULT_ADJ)))
              host_ok (app0 None (set_temperature (-40) DEFAULT_ADJ))
              (page image_4000x3000) 0%nat 1%nat image_4000x3000 blank_canvas
              _ eq_refl eq_refl eq_refl eq_refl eq_refl eq_refl eq_refl)
    as (w' & sx & sy & sw & sh & dw & dh & Hrun & Hin).
  exists w'. split; [exact Hrun|].
  assert (E : snd (handleExport host_ok (app0 None (set_temperature (-40) DEFAULT_ADJ))
                     (page image_4000x3000)) = w') by (rewrite Hrun; reflexivity).
  rewrite <- E. vm_compute. tauto.
Defined.

(** ** The vignette *)

Lemma Prim2SF_100 : Prim2SF 100 = S754_finite false 7036874417766400 (-46).
Proof. vm_compute. reflexivity. Qed.

Lemma is_zero_div_100 (v : number) :
  (v =? 0) = true -> exists s, Prim2SF (v / 100) = S754_zero s.
Proof.
  rewrite FloatAxioms.eqb_spec, div_spec, Prim2SF_100. unfold SFeqb.
  destruct (Prim2SF v) as [s|s| |s m e]; cbn;
    try discriminate; try (destruct s; discriminate).
  intros _. eexists. reflexivity.
Qed.

Lemma Math_min_zero (x : number) (s : bool) :
  Prim2SF x = S754_zero s -> (Math_min x 0.85 =? 0) = true.
Proof.
  intros Hx. unfold Math_min.
  assert (Hnan : is_nan x = false).
  { unfold is_nan. rewrite FloatAxioms.eqb_spec, Hx. reflexivity. }
  rewrite Hnan. change (is_nan 0.85) with false. cbn [orb].
  assert (Hlt : (x <? 0.85) = true).
  { rewrite ltb_spec, Hx. vm_compute. reflexivity. }
  rewrite Hlt, FloatAxioms.eqb_spec, Hx. reflexivity.
Qed.

Lemma eq_0_vignette_off (v : number) :
  (v =? 0) = true -> gt v 0 = false /\ (Math_min (v / 100) 0.85 =? 0) = true.
Proof.
  intros H. split; [apply eq_0_not_gt_0, H|].
  destruct (is_zero_div_100 v H) as [s Hs]. exact (Math_min_zero _ s Hs).
Qed.

(** At vignette 0 the preview still has its overlay. *)
Lemma preview_overlay_at_0 :
  Adj.vignette (App.adj (app0 None DEFAULT_ADJ)) = 0
  /\ preview_overlay (app0 None DEFAULT_ADJ)
     = Some [Lit "radial-gradient(circle, transparent "; Num 60;
             Lit "%, rgba(0,0,0,"; Num 0; Lit ") 100%)"]
  /\ ~ (forall app : App.t,
          Adj.vignette (App.adj app) = 0 -> preview_overlay app = None).
Proof.
  split; [reflexivity|]. split; [vm_compute; reflexivity|].
  intros H. specialize (H (app0 None DEFAULT_ADJ) eq_refl). discriminate H.
Qed.

(** C6, amended. For a vignette [v] in [0, 200], with
    [alpha = min(v / 100, 0.85)]:
    - an export with [v > 0] whose drawing succeeds and whose gradient
      can be made paints a gradient with the stops [transparent] at 0 and
      [rgba(0,0,0,alpha)] at 1; an export with [v = 0] paints nothing;
    - the preview, whenever the workspace is rendered, has an overlay
      that is a gradient from [transparent] to [rgba(0,0,0,alpha)] at
      100 percent, also at [v = 0], where [alpha] is zero. *)
Theorem vignette_stops (adj : Adj.t) :
  let v := Adj.vignette adj in
  (0 <=? v) = true -> (v <=? 200) = true ->
  let alpha := Math_min (v / 100) 0.85 in
  (forall (h : Host) (app : App.t) (w : World) (i k : nat)
          (image : Image.t) (c0 : Canvas.t),
     App.adj app = adj ->
     App.imgRef app = Some i -> dom w !! i = Some (ImgEl image) ->
     App.downloadCanvasRef app = Some k -> dom w !! k = Some (CanvasEl c0) ->
     let region := sourceRegion image (App.completedCrop app) in
     let W := canvas_width_of (Math_floor (sourceWidth region)) in
     let H := canvas_height_of (Math_floor (sourceHeight region)) in
     exists w',
       handleExport h app w = (Returned tt, w')
       /\ (gt v 0 = true -> drawImage_raises h = None ->
           gradient_args_finite W H v = true ->
           exists g,
             In (FillRect k FilterNone (FillGradient g) 0 0 W H) (log w')
             /\ stops g = [(0, [Lit "transparent"]); (1, black alpha)])
       /\ ((v =? 0) = true ->
           forall f s x y w1 h1,
             In (FillRect k f s x y w1 h1) (log w') ->
             In (FillRect k f s x y w1 h1) (log w)))
  /\ (forall app : App.t,
        App.adj app = adj -> App.imgSrc app <> "" ->
        exists t,
          preview_overlay app = Some t
          /\ forall Number_toString : number -> string,
               render Number_toString t
               = render Number_toString
                   (css_radial_gradient [Lit "transparent"]
                      (Math_max 0 (60 - v / 2)) (black alpha)))
  /\ ((v =? 0) = true -> (alpha =? 0) = true).
Proof.
  intros v Hlo Hhi alpha. split; [|split].
  - intros h app w i k image c0 Hadj Himg Hi Hcan Hc region W H.
    pose proof (handleExport_exported h app w i k image c0 Himg Hi Hcan Hc) as Hrun.
    fold region in Hrun. rewrite Hadj in Hrun.
    eexists. split; [exact Hrun|]. split.
    + intros Hv Hd Hf. eexists. split.
      * exact (exported_painted h k i region adj w Hd Hv Hf).
      * reflexivity.
    + intros Hz f s x y w1 h1.
      apply exported_unpainted, eq_0_not_gt_0, Hz.
  - intros app Hadj Hsrc. unfold preview_overlay, render_workspace.
    destruct (String.eqb_spec (App.imgSrc app) "") as [E|_]; [contradiction|].
    eexists. split; [reflexivity|].
    intros Number_toString. cbn [overlay_background]. rewrite Hadj. reflexivity.
  - intros Hz. exact (proj2 (eq_0_vignette_off v Hz)).
Qed.

Lemma vignette_stops_witness :
  exists t,
    preview_overlay (app0 None (set_vignette 150 DEFAULT_ADJ)) = Some t
    /\ render (fun _ => "#") t
       = render (fun _ => "#")
           (css_radial_gradient [Lit "transparent"] (Math_max 0 (60 - 150 / 2))
              (black 0.85)).
Proof.
  destruct (proj1 (proj2 (vignette_stops (set_vignette 150 DEFAULT_ADJ)
                            eq_refl eq_refl))
              (app0 None (set_vignette 150 DEFAULT_ADJ)) eq_refl)
    as (t & Ht & Hr).
  - discriminate.
  - exists t. split; [exact Ht|]. exact (Hr (fun _ => "#")).
Defined.

Lemma compare_cont_antisym (m1 m2 : positive) :
  Pos.compare_cont Eq m2 m1 = CompOpp (Pos.compare_cont Eq m1 m2).
Proof. exact (eq_sym (Pos.compare_cont_antisym m1 m2 Eq)). Qed.

Lemma SFcompare_antisym (a b : spec_float) :
  SFcompare b a = option_map CompOpp (SFcompare a b).
Proof.
  destruct a as [[|]|[|]| |[|] m1 e1], b as [[|]|[|]| |[|] m2 e2];
    try reflexivity; unfold SFcompare, option_map; f_equal;
    rewrite (Z.compare_antisym e1 e2), (compare_cont_antisym m1 m2);
    destruct (e1 ?= e2)%Z; try reflexivity;
    destruct (Pos.compare_cont Eq m1 m2); reflexivity.
Qed.

Lemma ltb_asym (a b : number) : (a <? b) = true -> (b <? a) = false.
Proof.
  rewrite !ltb_spec. unfold SFltb.
  rewrite (SFcompare_antisym (Prim2SF a) (Prim2SF b)).
  destruct (SFcompare (Prim2SF a) (Prim2SF b)) as [[| |]|]; cbn; congruence.
Qed.







(** ** The export target *)

(** Two exports in a row, with and without a crop, size and draw on the
    same element 1; the document still has its two elements. *)
Lemma export_reuses_canvas :
  let w1 := snd (handleExport host_ok (app0 (Some crop_200x150) DEFAULT_ADJ)
                   (page image_4000x3000)) in
  let w2 := snd (handleExport host_ok (app0 None DEFAULT_ADJ) w1) in
  log w2
  = [SetWidth 1 1000; SetHeight 1 750;
     DrawImage 1 (FilterOf (ctx_filter DEFAULT_ADJ)) 0 500 500 1000 750 0 0 1000 750;
     ToBlob 1 "image/png" 1;
     SetWidth 1 4000; SetHeight 1 3000;
     DrawImage 1 (FilterOf (ctx_filter DEFAULT_ADJ)) 0 0 0 4000 3000 0 0 4000 3000;
     ToBlob 1 "image/png" 1]
  /\ length (dom w2) = 2%nat
  /\ ~ fresh_target_per_export.
Proof.
  split; [vm_compute; reflexivity|]. split; [reflexivity|].
  intros H.
  specialize (H host_ok (app0 (Some crop_200x150) DEFAULT_ADJ) (page image_4000x3000)
                (snd (handleExport host_ok (app0 (Some crop_200x150) DEFAULT_ADJ)
                        (page image_4000x3000))) 1%nat 1000).
  assert (Hle : (length (dom (page image_4000x3000)) <= 1)%nat).
  { apply H.
    - vm_compute. reflexivity.
    - vm_compute. left. reflexivity.
    - intros []. }
  cbn in Hle. lia.
Qed.

Lemma exported_dom_sized (h : Host) (k i : nat) (region : SourceRegion)
    (adj : Adj.t) (w0 : World) :
  (k < length (dom w0))%nat ->
  exists c,
    dom (exported h k i region adj w0) = <[k := CanvasEl c]> (dom w0)
    /\ Canvas.width c = canvas_width_of (Math_floor (sourceWidth region))
    /\ Canvas.height c = canvas_height_of (Math_floor (sourceHeight region)).
Proof.
  intros Hk.
  destruct (exported_dom h k i region adj w0) as (c & Hdom).
  destruct (exported_canvas h k i region adj w0 Hk) as (c' & Hc' & Hw & Hh).
  rewrite Hdom, (list_lookup_insert_eq _ _ _ Hk) in Hc'.
  injection Hc' as ->. exists c'. auto.
Qed.

(** C8, amended. The export target is the one hidden canvas that
    [downloadCanvasRef] points to. Each export assigns the floored width
    and height of that export's source region to its width and height,
    and the canvas holds what an [unsigned long] attribute keeps of
    them: the floored values themselves whenever they are integers from
    0 to 2147483647. The next export does the same on the same element,
    and the document gains no element by it. *)
Theorem export_target_is_the_hidden_canvas (h1 h2 : Host) (app1 app2 : App.t)
    (w : World) (i k : nat) (image : Image.t) (c0 : Canvas.t) :
  App.imgRef app1 = Some i -> App.imgRef app2 = Some i ->
  dom w !! i = Some (ImgEl image) ->
  App.downloadCanvasRef app1 = Some k -> App.downloadCanvasRef app2 = Some k ->
  dom w !! k = Some (CanvasEl c0) ->
  let region1 := sourceRegion image (App.completedCrop app1) in
  let region2 := sourceRegion image (App.completedCrop app2) in
  exists w1 w2 c1 c2 evs1 evs2,
    handleExport h1 app1 w = (Returned tt, w1)
    /\ handleExport h2 app2 w1 = (Returned tt, w2)
    /\ dom w1 = <[k := CanvasEl c1]> (dom w)
    /\ Canvas.width c1 = canvas_width_of (Math_floor (sourceWidth region1))
    /\ Canvas.height c1 = canvas_height_of (Math_floor (sourceHeight region1))
    /\ log w1 = log w ++ [SetWidth k (Math_floor (sourceWidth region1));
                          SetHeight k (Math_floor (sourceHeight region1))] ++ evs1
    /\ dom w2 = <[k := CanvasEl c2]> (dom w)
    /\ Canvas.width c2 = canvas_width_of (Math_floor (sourceWidth region2))
    /\ Canvas.height c2 = canvas_height_of (Math_floor (sourceHeight region2))
    /\ log w2 = log w1 ++ [SetWidth k (Math_floor (sourceWidth region2));
                           SetHeight k (Math_floor (sourceHeight region2))] ++ evs2
    /\ length (dom w2) = length (dom w)
    /\ (forall qw qh : Z,
          (0 <= qw <= 2147483647)%Z -> (0 <= qh <= 2147483647)%Z ->
          Math_floor (sourceWidth region1) = of_Z qw ->
          Math_floor (sourceHeight region1) = of_Z qh ->
          Canvas.width c1 = Math_floor (sourceWidth region1)
          /\ Canvas.height c1 = Math_floor (sourceHeight region1))
    /\ (forall qw qh : Z,
          (0 <= qw <= 2147483647)%Z -> (0 <= qh <= 2147483647)%Z ->
          Math_floor (sourceWidth region2) = of_Z qw ->
          Math_floor (sourceHeight region2) = of_Z qh ->
          Canvas.width c2 = Math_floor (sourceWidth region2)
          /\ Canvas.height c2 = Math_floor (sourceHeight region2)).
Proof.
  intros Hi1 Hi2 Hi Hk1 Hk2 Hc region1 region2.
  pose proof (lookup_lt_Some _ _ _ Hc) as Hk.
  assert (Hik : k <> i) by (intros ->; rewrite Hi in Hc; discriminate Hc).
  pose proof (handleExport_exported h1 app1 w i k image c0 Hi1 Hi Hk1 Hc) as Hrun1.
  fold region1 in Hrun1.
  destruct (exported_dom_sized h1 k i region1 (App.adj app1) w Hk)
    as (c1 & Hdom1 & Hw1 & Hh1).
  destruct (exported_log h1 k i region1 (App.adj app1) w) as (evs1 & Hlog1).
  set (w1 := exported h1 k i region1 (App.adj app1) w) in *.
  assert (Hi' : dom w1 !! i = Some (ImgEl image)).
  { rewrite Hdom1, list_lookup_insert_ne by exact Hik. exact Hi. }
  assert (Hc' : dom w1 !! k = Some (CanvasEl c1)).
  { rewrite Hdom1. apply list_lookup_insert_eq, Hk. }
  pose proof (lookup_lt_Some _ _ _ Hc') as Hk'.
  pose proof (handleExport_exported h2 app2 w1 i k image c1 Hi2 Hi' Hk2 Hc') as Hrun2.
  fold region2 in Hrun2.
  destruct (exported_dom_sized h2 k i region2 (App.adj app2) w1 Hk')
    as (c2 & Hdom2 & Hw2 & Hh2).
  destruct (exported_log h2 k i region2 (App.adj app2) w1) as (evs2 & Hlog2).
  set (w2 := exported h2 k i region2 (App.adj app2) w1) in *.
  rewrite Hdom1, list_insert_insert_eq in Hdom2.
  exists w1, w2, c1, c2, evs1, evs2.
  repeat (split; [assumption|]).
  split; [rewrite Hdom2; apply length_insert|].
  split; intros qw qh Hqw Hqh Ew Eh.
  - rewrite Hw1, Hh1. split.
    + exact (canvas_width_of_integer _ qw Hqw Ew).
    + exact (canvas_height_of_integer _ qh Hqh Eh).
  - rewrite Hw2, Hh2. split.
    + exact (canvas_width_of_integer _ qw Hqw Ew).
    + exact (canvas_height_of_integer _ qh Hqh Eh).
Qed.

Lemma export_target_is_the_hidden_canvas_witness :
  exists w1 w2 c2,
    handleExport host_ok (app0 (Some crop_200x150) DEFAULT_ADJ) (page image_4000x3000)
    = (Returned tt, w1)
    /\ handleExport host_ok (app0 None DEFAULT_ADJ) w1 = (Returned tt, w2)
    /\ dom w2 = <[1%nat := CanvasEl c2]> (dom (page image_4000x3000))
    /\ Canvas.width c2 = 4000 /\ Canvas.height c2 = 3000.
Proof.
  destruct (export_target_is_the_hidden_canvas host_ok host_ok
              (app0 (Some crop_200x150) DEFAULT_ADJ) (app0 None DEFAULT_ADJ)
              (page image_4000x3000) 0%nat 1%nat image_4000x3000 blank_canvas
              eq_refl eq_refl eq_refl eq_refl eq_refl eq_refl)
    as (w1 & w2 & c1 & c2 & evs1 & evs2 & H1 & H2 & _ & _ & _ & _ & Hd & Hw & Hh & _).
  exists w1, w2, c2. repeat (split; [assumption|]). exact Hh.
Defined.

(** ** Percent crops *)

Lemma sourceRegion_with_unit (image : Image.t) (c : Crop.t) (u : Crop.unit_t) :
  sourceRegion image (Some (Crop.with_unit u c)) = sourceRegion image (Some c).
Proof. reflexivity. Qed.

Lemma convertToPercentCrop_unit c w h :
  Crop.unit (ReactImageCrop.convertToPercentCrop c w h) = Crop.Percent.
Proof.
  unfold ReactImageCrop.convertToPercentCrop.
  destruct (Crop.unit c) eqn:E; [reflexivity|exact E].
Qed.

Lemma convertToPixelCrop_unit p w h :
  Crop.unit (ReactImageCrop.convertToPixelCrop p w h) = Crop.Px.
Proof.
  unfold ReactImageCrop.convertToPixelCrop.
  destruct (Crop.p_unit p); reflexivity.
Qed.

Lemma ReactImageCrop_makeAspectCrop_unit p a w h :
  Crop.unit (ReactImageCrop.makeAspectCrop p a w h) = Crop.p_unit p.
Proof.
  unfold ReactImageCrop.makeAspectCrop.
  destruct (Crop.p_unit p) eqn:E; [|apply convertToPercentCrop_unit].
  repeat match goal with
         | |- context [if ?b then _ else _] => destruct b
         end;
    cbn [ReactImageCrop.set_size Crop.unit]; apply convertToPixelCrop_unit.
Qed.

Lemma ReactImageCrop_centerCrop_unit c w h :
  Crop.unit (ReactImageCrop.centerCrop c w h) = Crop.unit c.
Proof.
  unfold ReactImageCrop.centerCrop.
  destruct (Crop.unit c) eqn:E; [|apply convertToPercentCrop_unit].
  cbn [ReactImageCrop.set_pos Crop.unit]. apply convertToPixelCrop_unit.
Qed.

Lemma onImageLoad_crops (width height : number) (app : App.t) :
  let initialCrop :=
    ReactImageCrop.centerCrop
      (ReactImageCrop.makeAspectCrop (percent_width 100) (App.aspect app) width height)
      width height in
  let app' := onImageLoad ReactImageCrop.makeAspectCrop ReactImageCrop.centerCrop
                width height app in
  App.crop app' = Some initialCrop /\ App.completedCrop app' = Some initialCrop
  /\ App.imgSrc app' = App.imgSrc app /\ Crop.unit initialCrop = Crop.Percent.
Proof.
  cbn zeta. repeat split.
  rewrite ReactImageCrop_centerCrop_unit, ReactImageCrop_makeAspectCrop_unit.
  reflexivity.
Qed.

Lemma handleAspectChange_crops (newAspect : number) (document : list Element)
    (app : App.t) (i : nat) (image : Image.t) :
  App.imgRef app = Some i -> document !! i = Some (ImgEl image) ->
  let newCrop :=
    ReactImageCrop.centerCrop
      (ReactImageCrop.makeAspectCrop (percent_width 90) newAspect
         (Image.width image) (Image.height image))
      (Image.width image) (Image.height image) in
  let app' := handleAspectChange ReactImageCrop.makeAspectCrop
                ReactImageCrop.centerCrop newAspect document app in
  App.crop app' = Some newCrop /\ App.completedCrop app' = Some newCrop
  /\ App.imgSrc app' = App.imgSrc app /\ Crop.unit newCrop = Crop.Percent.
Proof.
  intros Hi Himg. cbn zeta. unfold handleAspectChange.
  cbn [App.imgRef App.setAspect]. rewrite Hi, Himg. repeat split.
  rewrite ReactImageCrop_centerCrop_unit, ReactImageCrop_makeAspectCrop_unit.
  reflexivity.
Qed.

(** The widget says nothing when a crop was shown before. *)
Lemma rerender_crop_shown (boxWidth boxHeight : number) (before after : App.t)
    (c0 : Crop.t) :
  App.crop before = Some c0 -> rerender boxWidth boxHeight before after = after.
Proof.
  intros H. unfold rerender, ReactImageCrop.componentDidUpdate. rewrite H.
  destruct (_ || _); reflexivity.
Qed.

(** It reports the crop in pixels when none was shown before. *)
Lemma rerender_first_crop (boxWidth boxHeight : number) (before after : App.t)
    (c : Crop.t) :
  App.crop before = None -> App.crop after = Some c ->
  App.imgSrc before <> "" -> App.imgSrc after <> "" ->
  ReactImageCrop.truthy (Some boxWidth) = true ->
  ReactImageCrop.truthy (Some boxHeight) = true ->
  rerender boxWidth boxHeight before after
  = onComplete
      (ReactImageCrop.convertToPixelCrop (ReactImageCrop.to_partial c)
         boxWidth boxHeight)
      after.
Proof.
  intros Hb Ha Hsb Hsa Hw Hh. unfold rerender, ReactImageCrop.componentDidUpdate.
  destruct (String.eqb_spec (App.imgSrc before) "") as [E|_]; [contradiction|].
  destruct (String.eqb_spec (App.imgSrc after) "") as [E|_]; [contradiction|].
  rewrite Hb, Ha, Hw, Hh. reflexivity.
Qed.

(** The first load of the 4000x3000 image shown at 800x600, at 16:9:
    the handler commits [{unit:'%', x:0, y:12.5, width:100, height:75}],
    the widget then commits the same crop in pixels, and the export
    takes the region [{x:0, y:375, width:4000, height:2250}]. *)
Lemma first_load_commits_pixels :
  let app := image_load 800 600 800 600 (app0 None DEFAULT_ADJ) in
  App.completedCrop
    (onImageLoad ReactImageCrop.makeAspectCrop ReactImageCrop.centerCrop
       800 600 (app0 None DEFAULT_ADJ))
  = Some {| Crop.unit := Crop.Percent; Crop.x := 0; Crop.y := 12.5;
            Crop.width := 100; Crop.height := 75 |}
  /\ App.completedCrop app
     = Some {| Crop.unit := Crop.Px; Crop.x := 0; Crop.y := 75;
               Crop.width := 800; Crop.height := 450 |}
  /\ sourceRegion image_4000x3000 (App.completedCrop app)
     = {| sourceX := 0; sourceY := 375; sourceWidth := 4000; sourceHeight := 2250 |}
  /\ ~ load_commits_percent.
Proof.
  split; [vm_compute; reflexivity|]. split; [vm_compute; reflexivity|].
  split; [vm_compute; reflexivity|].
  intros H.
  destruct (H 800 600 800 600 (app0 None DEFAULT_ADJ) ltac:(discriminate))
    as (c & Hc & Hu).
  vm_compute in Hc. injection Hc as <-. discriminate Hu.
Qed.

(** C9, amended. The source region, and with it the whole export,
    depends on the committed crop through [x], [y], [width] and
    [height] only: changing [unit] changes nothing. So for a percent
    crop with positive width and height the region is the percent
    values times [scaleX] and [scaleY], the region of the same numbers
    read as pixels. A percent crop is what a click on an aspect preset
    and a load of the image leave committed when a crop is already
    shown. When no crop is shown yet, as at the first load of an image,
    and the widget has a size, the widget's [onComplete] follows and
    commits that crop converted to pixels. A drag commits what the
    widget reports. An export with a percent crop committed assigns the
    floored percent width and height times the scales to the canvas and
    draws from the percent values times the scales. *)
Theorem export_ignores_crop_unit :
  (forall (image : Image.t) (c : Crop.t) (u : Crop.unit_t),
     sourceRegion image (Some (Crop.with_unit u c)) = sourceRegion image (Some c))
  /\ (forall (h : Host) (app : App.t) (w : World) (c : Crop.t) (u : Crop.unit_t),
        App.completedCrop app = Some c ->
        handleExport h (App.setCompletedCrop (Some (Crop.with_unit u c)) app) w
        = handleExport h app w)
  /\ (forall (image : Image.t) (c : Crop.t),
        Crop.unit c = Crop.Percent ->
        gt (Crop.width c) 0 = true -> gt (Crop.height c) 0 = true ->
        sourceRegion image (Some c)
        = {| sourceX := Crop.x c * (Image.naturalWidth image / Image.width image);
             sourceY := Crop.y c * (Image.naturalHeight image / Image.height image);
             sourceWidth :=
               Crop.width c * (Image.naturalWidth image / Image.width image);
             sourceHeight :=
               Crop.height c * (Image.naturalHeight image / Image.height image) |}
        /\ sourceRegion image (Some c)
           = sourceRegion image (Some (Crop.with_unit Crop.Px c)))
  /\ (forall (newAspect : number) (document : list Element)
             (boxWidth boxHeight : number) (app : App.t)
             (i : nat) (image : Image.t) (c0 : Crop.t),
        App.imgRef app = Some i -> document !! i = Some (ImgEl image) ->
        App.crop app = Some c0 ->
        exists c,
          App.completedCrop (preset_click newAspect document boxWidth boxHeight app)
          = Some c
          /\ Crop.unit c = Crop.Percent)
  /\ (forall (width height boxWidth boxHeight : number) (app : App.t) (c0 : Crop.t),
        App.crop app = Some c0 ->
        exists c,
          App.completedCrop (image_load width height boxWidth boxHeight app) = Some c
          /\ Crop.unit c = Crop.Percent)
  /\ (forall (width height boxWidth boxHeight : number) (app : App.t),
        App.crop app = None -> App.imgSrc app <> "" ->
        ReactImageCrop.truthy (Some boxWidth) = true ->
        ReactImageCrop.truthy (Some boxHeight) = true ->
        exists c,
          App.completedCrop (image_load width height boxWidth boxHeight app) = Some c
          /\ Crop.unit c = Crop.Px
          /\ c = ReactImageCrop.convertToPixelCrop
                   (ReactImageCrop.to_partial
                      (ReactImageCrop.centerCrop
                         (ReactImageCrop.makeAspectCrop (percent_width 100)
                            (App.aspect app) width height)
                         width height))
                   boxWidth boxHeight)
  /\ (forall (newAspect : number) (document : list Element)
             (boxWidth boxHeight : number) (app : App.t)
             (i : nat) (image : Image.t),
        App.imgRef app = Some i -> document !! i = Some (ImgEl image) ->
        App.crop app = None -> App.imgSrc app <> "" ->
        ReactImageCrop.truthy (Some boxWidth) = true ->
        ReactImageCrop.truthy (Some boxHeight) = true ->
        exists c,
          App.completedCrop (preset_click newAspect document boxWidth boxHeight app)
          = Some c
          /\ Crop.unit c = Crop.Px)
  /\ (forall (c : Crop.t) (app : App.t),
        App.completedCrop (onComplete c app) = Some c)
  /\ (forall (h : Host) (app : App.t) (w : World) (i k : nat)
             (image : Image.t) (c0 : Canvas.t) (c : Crop.t),
        App.completedCrop app = Some c -> Crop.unit c = Crop.Percent ->
        gt (Crop.width c) 0 = true -> gt (Crop.height c) 0 = true ->
        App.imgRef app = Some i -> dom w !! i = Some (ImgEl image) ->
        App.downloadCanvasRef app = Some k -> dom w !! k = Some (CanvasEl c0) ->
        let sx := Image.naturalWidth image / Image.width image in
        let sy := Image.naturalHeight image / Image.height image in
        exists w' evs,
          handleExport h app w = (Returned tt, w')
          /\ log w' = log w ++ [SetWidth k (Math_floor (Crop.width c * sx));
                                SetHeight k (Math_floor (Crop.height c * sy))] ++ evs
          /\ (drawImage_raises h = None ->
              In (DrawImage k (FilterOf (ctx_filter (App.adj app))) i
                    (Crop.x c * sx) (Crop.y c * sy)
                    (Crop.width c * sx) (Crop.height c * sy)
                    0 0
                    (canvas_width_of (Math_floor (Crop.width c * sx)))
                    (canvas_height_of (Math_floor (Crop.height c * sy))))
                 (log w'))).
Proof.
  split; [exact sourceRegion_with_unit|].
  split; [|split; [|split; [|split; [|split; [|split; [|split]]]]]].
  - intros h app w c u Hc. apply handleExport_region_ext; try reflexivity.
    intros image. cbn [App.completedCrop App.setCompletedCrop]. rewrite Hc.
    apply sourceRegion_with_unit.
  - intros image c _ Hw Hh. split; [|reflexivity].
    unfold sourceRegion, isCropValid. rewrite Hw, Hh. reflexivity.
  - intros newAspect document bw bh app i image c0 Hi Himg Hc0.
    destruct (handleAspectChange_crops newAspect document app i image Hi Himg)
      as (_ & Hcc & _ & Hu).
    unfold preset_click. rewrite (rerender_crop_shown _ _ _ _ c0 Hc0).
    eexists. split; [exact Hcc|exact Hu].
  - intros width height bw bh app c0 Hc0.
    destruct (onImageLoad_crops width height app) as (_ & Hcc & _ & Hu).
    unfold image_load. rewrite (rerender_crop_shown _ _ _ _ c0 Hc0).
    eexists. split; [exact Hcc|exact Hu].
  - intros width height bw bh app Hnone Hsrc Hbw Hbh.
    destruct (onImageLoad_crops width height app) as (Hc & _ & Hs & _).
    unfold image_load.
    rewrite (rerender_first_crop bw bh _ _ _ Hnone Hc Hsrc
               ltac:(rewrite Hs; exact Hsrc) Hbw Hbh).
    eexists. split; [reflexivity|]. split; [apply convertToPixelCrop_unit|reflexivity].
  - intros newAspect document bw bh app i image Hi Himg Hnone Hsrc Hbw Hbh.
    destruct (handleAspectChange_crops newAspect document app i image Hi Himg)
      as (Hc & _ & Hs & _).
    unfold preset_click.
    rewrite (rerender_first_crop bw bh _ _ _ Hnone Hc Hsrc
               ltac:(rewrite Hs; exact Hsrc) Hbw Hbh).
    eexists. split; [reflexivity|apply convertToPixelCrop_unit].
  - reflexivity.
  - intros h app w i k image c0 c Hcrop _ Hw Hh Himg Hi Hcan Hc sx sy.
    pose proof (handleExport_exported h app w i k image c0 Himg Hi Hcan Hc) as Hrun.
    rewrite Hcrop in Hrun.
    assert (Hregion : sourceRegion image (Some c)
                      = {| sourceX := Crop.x c * sx; sourceY := Crop.y c * sy;
                           sourceWidth := Crop.width c * sx;
                           sourceHeight := Crop.height c * sy |}).
    { unfold sourceRegion, isCropValid. rewrite Hw, Hh. reflexivity. }
    rewrite Hregion in Hrun.
    set (R := {| sourceX := Crop.x c * sx; sourceY := Crop.y c * sy;
                 sourceWidth := Crop.width c * sx;
                 sourceHeight := Crop.height c * sy |}) in *.
    destruct (exported_log h k i R (App.adj app) w) as (evs & Hlog).
    exists (exported h k i R (App.adj app) w), evs.
    split; [exact Hrun|]. split; [exact Hlog|].
    exact (exported_drawn h k i R (App.adj app) w).
Qed.

(** The 4000x3000 image shown at 800x600, loaded at 16:9, then a click
    on 1:1: the committed crop is
    [{unit:'%', x:12.5, y:0, width:75, height:100}], and the export takes
    the region [{x:62.5, y:0, width:375, height:500}]. *)
Lemma export_ignores_crop_unit_witness :
  let app := preset_click 1 (dom (page image_4000x3000)) 800 600
               (image_load 800 600 800 600 (app0 None DEFAULT_ADJ)) in
  App.completedCrop app
  = Some {| Crop.unit := Crop.Percent; Crop.x := 12.5; Crop.y := 0;
            Crop.width := 75; Crop.height := 100 |}
  /\ sourceRegion image_4000x3000 (App.completedCrop app)
     = {| sourceX := 62.5; sourceY := 0; sourceWidth := 375; sourceHeight := 500 |}
  /\ exists w',
       handleExport host_ok app (page image_4000x3000) = (Returned tt, w')
       /\ In (DrawImage 1 (FilterOf (ctx_filter DEFAULT_ADJ)) 0
                62.5 0 375 500 0 0 375 500)
             (log w').
Proof.
  intros app.
  destruct export_ignores_crop_unit
    as (_ & _ & Hpercent & Hpreset & _ & _ & _ & _ & Hexport).
  destruct (Hpreset 1 (dom (page image_4000x3000)) 800 600
              (image_load 800 600 800 600 (app0 None DEFAULT_ADJ))
              0%nat image_4000x3000
              {| Crop.unit := Crop.Percent; Crop.x := 0; Crop.y := 12.5;
                 Crop.width := 100; Crop.height := 75 |}
              eq_refl eq_refl ltac:(vm_compute; reflexivity))
    as (c & Hc & Hu).
  fold app in Hc.
  assert (E : c = {| Crop.unit := Crop.Percent; Crop.x := 12.5; Crop.y := 0;
                     Crop.width := 75; Crop.height := 100 |}).
  { assert (E' : Some c = App.completedCrop app) by (symmetry; exact Hc).
    vm_compute in E'. injection E' as ->. reflexivity. }
  rewrite E in Hc. rewrite Hc. split; [reflexivity|]. split.
  - exact (proj1 (Hpercent image_4000x3000
                    {| Crop.unit := Crop.Percent; Crop.x := 12.5; Crop.y := 0;
                       Crop.width := 75; Crop.height := 100 |}
                    eq_refl eq_refl eq_refl)).
  - destruct (Hexport host_ok app (page image_4000x3000) 0%nat 1%nat
                image_4000x3000 blank_canvas _ Hc eq_refl eq_refl eq_refl
                eq_refl eq_refl eq_refl eq_refl)
      as (w' & evs & Hrun & _ & Hdraw).
    exists w'. split; [exact Hrun|]. exact (Hdraw eq_refl).
Defined.


(** ** More on the export *)

(** The exported world is the old one with the canvas replaced, some
    events logged and some tasks queued, none of which depends on it. *)
Lemma exported_shape (h : Host) (k i : nat) (region : SourceRegion) (adj : Adj.t) :
  exists c evs ts, forall w0, exported h k i region adj w0 = after k c evs ts w0.
Proof.
  unfold exported, encoding.
  destruct (drawImage_raises h);
    [| destruct (gt (Adj.vignette adj) 0);
       [ destruct (gradient_args_finite _ _ _) |];
       destruct (toBlob_raises h) ];
    do 3 eexists; intros w0; reflexivity.
Qed.

Lemma exported_success (h : Host) (k i : nat) (region : SourceRegion)
    (adj : Adj.t) (w0 : World) :
  drawImage_raises h = None ->
  (gt (Adj.vignette adj) 0 = true ->
   gradient_args_finite (target_width region) (target_height region) (Adj.vignette adj) = true) ->
  exported h k i region adj w0
  = encoding h k
      (if gt (Adj.vignette adj) 0 then vignette_canvas region adj
       else sized_canvas region adj)
      (sizing k region ++ [drawing k i region adj]
         ++ (if gt (Adj.vignette adj) 0 then [painting k region adj] else []))
      w0.
Proof.
  intros Hd Hf. unfold exported. rewrite Hd.
  destruct (gt (Adj.vignette adj) 0).
  - cbn [sized_canvas Canvas.width Canvas.height]. rewrite (Hf eq_refl).
    rewrite <- app_assoc. reflexivity.
  - rewrite app_nil_r. reflexivity.
Qed.

Lemma read_anchor_last (d : list Element) (a : Anchor.t) l t :
  read_anchor (length d) {| dom := d ++ [AnchorEl a]; log := l; tasks := t |}
  = (Returned a, {| dom := d ++ [AnchorEl a]; log := l; tasks := t |}).
Proof.
  unfold read_anchor, get_element, bind. cbn [dom].
  rewrite (list_lookup_middle d [] _ (length d) eq_refl). reflexivity.
Qed.

Lemma set_element_last (d : list Element) (x e : Element) l t :
  set_element (length d) e {| dom := d ++ [x]; log := l; tasks := t |}
  = (Returned tt, {| dom := d ++ [e]; log := l; tasks := t |}).
Proof.
  unfold set_element. cbn [dom log tasks].
  rewrite (insert_app_r_alt d [x] (length d)) by lia.
  rewrite Nat.sub_diag. reflexivity.
Qed.

Lemma toBlob_callback_blob (h : Host) (b : Blob) (w : World) :
  toBlob_callback h (Some b) w
  = (Returned tt,
     {| dom := dom w ++ [AnchorEl {| Anchor.download := download_name h;
                                     Anchor.href := objectURL h b |}];
        log := log w ++ [CreateObjectURL b (objectURL h b);
                         CreateElement "a" (length (dom w));
                         Click (length (dom w))
                               {| Anchor.download := download_name h;
                                  Anchor.href := objectURL h b |};
                         RevokeObjectURL (objectURL h b)];
        tasks := tasks w |}).
Proof.
  destruct w as [d l t].
  unfold toBlob_callback, createObjectURL, createElement_a, set_download, set_href,
    click, revokeObjectURL, emit, bind, ret.
  cbn [dom log tasks].
  rewrite read_anchor_last, set_element_last.
  rewrite read_anchor_last, set_element_last.
  rewrite read_anchor_last.
  cbn [dom log tasks Anchor.download Anchor.href Anchor.empty].
  rewrite <- !app_assoc. reflexivity.
Qed.

(** X1. [handleExport] needs both refs: when [imgRef] or
    [downloadCanvasRef] holds no image or no canvas, the handler returns
    at once and the page is exactly as before: no canvas is resized,
    nothing is logged or queued, and a click downloads nothing. *)
Theorem export_needs_image_and_canvas (h : Host) (app : App.t) (w : World) :
  img_at (App.imgRef app) (dom w) = None
  \/ canvas_at (App.downloadCanvasRef app) (dom w) = None ->
  handleExport h app w = (Returned tt, w)
  /\ (tasks w = [] -> click_download h app w = (Returned tt, w)).
Proof.
  intros H. pose proof (handleExport_idle h app w H) as Hrun.
  split; [exact Hrun|]. intros Hts.
  rewrite (click_download_eq _ _ _ _ Hrun), Hts.
  destruct w as [d l t]. cbn in Hts. subst t. reflexivity.
Qed.

Lemma export_needs_image_and_canvas_witness :
  click_download host_ok app_unmounted (page image_4000x3000)
  = (Returned tt, page image_4000x3000).
Proof.
  exact (proj2 (export_needs_image_and_canvas host_ok app_unmounted
                  (page image_4000x3000) (or_introl eq_refl)) eq_refl).
Defined.

(** X2. When [toBlob] raises (a canvas that may not be read), the
    image has been drawn, and the vignette painted if it is on, but the
    exception is caught like a drawing failure: "Export failed:" is
    logged, the handler returns normally, no callback is queued and the
    click downloads nothing. *)
Theorem encoder_failure_is_caught (h : Host) (app : App.t) (w : World)
    (i k : nat) (image : Image.t) (c0 : Canvas.t) (e : Exn) :
  App.imgRef app = Some i -> dom w !! i = Some (ImgEl image) ->
  App.downloadCanvasRef app = Some k -> dom w !! k = Some (CanvasEl c0) ->
  drawImage_raises h = None -> toBlob_raises h = Some e ->
  let region := sourceRegion image (App.completedCrop app) in
  let adj := App.adj app in
  (gt (Adj.vignette adj) 0 = true ->
   gradient_args_finite (target_width region) (target_height region) (Adj.vignette adj) = true) ->
  exists w',
    handleExport h app w = (Returned tt, w')
    /\ log w' = log w ++ sizing k region ++ [drawing k i region adj]
                      ++ (if gt (Adj.vignette adj) 0 then [painting k region adj] else [])
                      ++ [ConsoleError "Export failed:" e]
    /\ tasks w' = tasks w
    /\ length (dom w') = length (dom w)
    /\ (tasks w = [] -> click_download h app w = (Returned tt, w')).
Proof.
  intros Himg Hi Hcan Hc Hd Ht region adj Hf.
  pose proof (handleExport_exported h app w i k image c0 Himg Hi Hcan Hc) as Hrun.
  fold region in Hrun. fold adj in Hrun.
  rewrite (exported_success h k i region adj w Hd Hf) in Hrun.
  unfold encoding in Hrun. rewrite Ht in Hrun.
  eexists. split; [exact Hrun|].
  cbn [log tasks dom after]. split; [rewrite <- !app_assoc; reflexivity|].
  split; [apply app_nil_r|]. split; [apply length_insert|].
  intros Hts. rewrite (click_download_eq _ _ _ _ Hrun).
  unfold after. cbn [log tasks dom]. rewrite Hts. reflexivity.
Qed.

Lemma encoder_failure_is_caught_witness :
  exists w',
    click_download host_tainted (app0 None DEFAULT_ADJ) (page image_4000x3000)
    = (Returned tt, w')
    /\ log w' = [SetWidth 1 4000; SetHeight 1 3000;
                 DrawImage 1 (FilterOf (ctx_filter DEFAULT_ADJ)) 0
                           0 0 4000 3000 0 0 4000 3000;
                 ConsoleError "Export failed:" SecurityError].
Proof.
  destruct (encoder_failure_is_caught host_tainted (app0 None DEFAULT_ADJ)
              (page image_4000x3000) 0 1 image_4000x3000 blank_canvas SecurityError
              eq_refl eq_refl eq_refl eq_refl eq_refl eq_refl)
    as (w' & _ & Hlog & _ & _ & Hclick).
  - discriminate.
  - exists w'. split; [exact (Hclick eq_refl)|exact Hlog].
Defined.

(** X3. An export in which nothing raises logs, in this order: the two
    assignments of the floored size, one [drawImage] of the source
    region onto the whole canvas (the width and height read back from
    it, which are what an [unsigned long] attribute keeps of the
    assigned values) under the compiled filter, then, only if the
    vignette is on, one [fillRect] of the whole canvas with the gradient
    and with the filter set to none, then [toBlob] as "image/png" at
    quality 1. It queues exactly one callback. *)
Theorem export_success_log (h : Host) (app : App.t) (w : World)
    (i k : nat) (image : Image.t) (c0 : Canvas.t) :
  App.imgRef app = Some i -> dom w !! i = Some (ImgEl image) ->
  App.downloadCanvasRef app = Some k -> dom w !! k = Some (CanvasEl c0) ->
  drawImage_raises h = None -> toBlob_raises h = None ->
  let region := sourceRegion image (App.completedCrop app) in
  let adj := App.adj app in
  let W := canvas_width_of (Math_floor (sourceWidth region)) in
  let H := canvas_height_of (Math_floor (sourceHeight region)) in
  (gt (Adj.vignette adj) 0 = true ->
   gradient_args_finite W H (Adj.vignette adj) = true) ->
  exists w',
    handleExport h app w = (Returned tt, w')
    /\ log w'
       = log w
         ++ [SetWidth k (Math_floor (sourceWidth region));
             SetHeight k (Math_floor (sourceHeight region));
             DrawImage k (FilterOf (ctx_filter adj)) i
               (sourceX region) (sourceY region)
               (sourceWidth region) (sourceHeight region) 0 0 W H]
         ++ (if gt (Adj.vignette adj) 0
             then [FillRect k FilterNone
                     (FillGradient (vignette_gradient W H (Adj.vignette adj)))
                     0 0 W H]
             else [])
         ++ [ToBlob k "image/png" 1]
    /\ tasks w' = tasks w ++ [BlobCallback k].
Proof.
  intros Himg Hi Hcan Hc Hd Ht region adj W H Hf.
  pose proof (handleExport_exported h app w i k image c0 Himg Hi Hcan Hc) as Hrun.
  fold region in Hrun. fold adj in Hrun.
  rewrite (exported_success h k i region adj w Hd Hf) in Hrun.
  unfold encoding in Hrun. rewrite Ht in Hrun.
  eexists. split; [exact Hrun|].
  cbn [log tasks after]. split; [|reflexivity].
  unfold sizing, drawing, painting, target_width, target_height. fold W. fold H.
  rewrite <- !app_assoc. reflexivity.
Qed.

Lemma export_success_log_witness :
  exists w',
    handleExport host_ok (app0 (Some crop_200x150) (set_vignette 150 DEFAULT_ADJ))
                 (page image_4000x3000) = (Returned tt, w')
    /\ log w'
       = [SetWidth 1 1000; SetHeight 1 750;
          DrawImage 1 (FilterOf (ctx_filter (set_vignette 150 DEFAULT_ADJ))) 0
                    500 500 1000 750 0 0 1000 750;
          FillRect 1 FilterNone (FillGradient (vignette_gradient 1000 750 150))
                   0 0 1000 750;
          ToBlob 1 "image/png" 1]
    /\ tasks w' = [BlobCallback 1].
Proof.
  destruct (export_success_log host_ok
              (app0 (Some crop_200x150) (set_vignette 150 DEFAULT_ADJ))
              (page image_4000x3000) 0 1 image_4000x3000 blank_canvas
              eq_refl eq_refl eq_refl eq_refl eq_refl eq_refl)
    as (w' & Hrun & Hlog & Hts).
  - reflexivity.
  - exists w'. split; [exact Hrun|]. split; [exact Hlog|exact Hts].
Defined.

(** X4. Given a blob, the callback of [toBlob] never raises and does
    four things in order: it makes an object URL for the blob, creates
    one new [<a>] element, clicks it with [href] the URL and [download]
    the name "VISION-CUT-" + [Date.now()] + ".png", and revokes that
    same URL. No other element changes. *)
Theorem download_callback_effects (h : Host) (b : Blob) (w : World) :
  exists w',
    toBlob_callback h (Some b) w = (Returned tt, w')
    /\ log w' = log w ++ [CreateObjectURL b (objectURL h b);
                          CreateElement "a" (length (dom w));
                          Click (length (dom w))
                                {| Anchor.download :=
                                     [Lit "VISION-CUT-"; Num (Date_now h); Lit ".png"];
                                   Anchor.href := objectURL h b |};
                          RevokeObjectURL (objectURL h b)]
    /\ (exists a, dom w' = dom w ++ [AnchorEl a])
    /\ tasks w' = tasks w
    /\ forall Number_toString : number -> string,
         render Number_toString (download_name h)
         = String.append "VISION-CUT-"
             (String.append (Number_toString (Date_now h)) ".png").
Proof.
  eexists. split; [apply toBlob_callback_blob|].
  cbn [log dom tasks]. split; [reflexivity|].
  split; [eexists; reflexivity|]. split; reflexivity.
Qed.

(** X5. One click on "Download PNG" in which nothing raises and the
    encoder yields a blob: the export events are followed by exactly one
    object URL, one new link, one click on it and the revocation of that
    URL; afterwards no task is left, the canvas is the only old element
    that changed and the link is the only new one. *)
Theorem click_download_success (h : Host) (app : App.t) (w : World)
    (i k : nat) (image : Image.t) (c0 : Canvas.t) (b : Blob) :
  App.imgRef app = Some i -> dom w !! i = Some (ImgEl image) ->
  App.downloadCanvasRef app = Some k -> dom w !! k = Some (CanvasEl c0) ->
  drawImage_raises h = None -> toBlob_raises h = None -> encoded h = Some b ->
  tasks w = [] ->
  let region := sourceRegion image (App.completedCrop app) in
  let adj := App.adj app in
  (gt (Adj.vignette adj) 0 = true ->
   gradient_args_finite (target_width region) (target_height region) (Adj.vignette adj) = true) ->
  exists w' c a,
    click_download h app w = (Returned tt, w')
    /\ log w'
       = log w ++ sizing k region ++ [drawing k i region adj]
           ++ (if gt (Adj.vignette adj) 0 then [painting k region adj] else [])
           ++ [ToBlob k "image/png" 1;
               CreateObjectURL b (objectURL h b);
               CreateElement "a" (length (dom w));
               Click (length (dom w)) a;
               RevokeObjectURL (objectURL h b)]
    /\ a = {| Anchor.download := download_name h; Anchor.href := objectURL h b |}
    /\ dom w' = <[k := CanvasEl c]> (dom w) ++ [AnchorEl a]
    /\ tasks w' = [].
Proof.
  intros Himg Hi Hcan Hc Hd Ht Hb Hts region adj Hf.
  pose proof (handleExport_exported h app w i k image c0 Himg Hi Hcan Hc) as Hrun.
  fold region in Hrun. fold adj in Hrun.
  rewrite (exported_success h k i region adj w Hd Hf) in Hrun.
  unfold encoding in Hrun. rewrite Ht in Hrun.
  do 3 eexists. split.
  - rewrite (click_download_eq _ _ _ _ Hrun).
    unfold after. cbn [log tasks dom]. rewrite Hts.
    cbn [Datatypes.app run_tasks run_task]. unfold bind. rewrite Hb, toBlob_callback_blob.
    cbn [dom log tasks]. unfold ret. reflexivity.
  - cbn [log dom tasks]. rewrite length_insert.
    split; [rewrite <- !app_assoc; reflexivity|].
    split; [reflexivity|]. split; reflexivity.
Qed.

Lemma click_download_success_witness :
  exists w',
    click_download host_ok (app0 None DEFAULT_ADJ) (page image_4000x3000)
    = (Returned tt, w')
    /\ log w'
       = [SetWidth 1 4000; SetHeight 1 3000;
          DrawImage 1 (FilterOf (ctx_filter DEFAULT_ADJ)) 0 0 0 4000 3000 0 0 4000 3000;
          ToBlob 1 "image/png" 1;
          CreateObjectURL (png 1) "blob:1";
          CreateElement "a" 2;
          Click 2 {| Anchor.download := [Lit "VISION-CUT-"; Num 1700000000000; Lit ".png"];
                     Anchor.href := "blob:1" |};
          RevokeObjectURL "blob:1"]
    /\ tasks w' = [].
Proof.
  destruct (click_download_success host_ok (app0 None DEFAULT_ADJ)
              (page image_4000x3000) 0 1 image_4000x3000 blank_canvas (png 1)
              eq_refl eq_refl eq_refl eq_refl eq_refl eq_refl eq_refl eq_refl)
    as (w' & c & a & Hrun & Hlog & Ha & _ & Hts).
  - discriminate.
  - exists w'. split; [exact Hrun|]. split; [|exact Hts].
    rewrite Hlog, Ha. reflexivity.
Defined.

(** X6. What an export does is independent of what the page held
    before: the canvas it leaves, the events it logs and the tasks it
    queues are the same on every page that has the image and a canvas,
    whatever size, filter or fill style an earlier export left on that
    canvas. So an export repeated with the same state logs the same
    events again and leaves the same canvas, and no element but the
    canvas changes. *)
Theorem export_independent_of_page (h : Host) (app : App.t)
    (i k : nat) (image : Image.t) :
  App.imgRef app = Some i -> App.downloadCanvasRef app = Some k ->
  exists c evs ts,
    (forall (w : World) (c0 : Canvas.t),
       dom w !! i = Some (ImgEl image) -> dom w !! k = Some (CanvasEl c0) ->
       handleExport h app w
       = (Returned tt, {| dom := <[k := CanvasEl c]> (dom w);
                          log := log w ++ evs;
                          tasks := tasks w ++ ts |}))
    /\ (forall (w : World) (c0 : Canvas.t),
          dom w !! i = Some (ImgEl image) -> dom w !! k = Some (CanvasEl c0) ->
          exists w1 w2,
            handleExport h app w = (Returned tt, w1)
            /\ handleExport h app w1 = (Returned tt, w2)
            /\ dom w2 = dom w1
            /\ log w2 = log w ++ evs ++ evs).
Proof.
  intros Himg Hcan.
  destruct (exported_shape h k i (sourceRegion image (App.completedCrop app))
              (App.adj app)) as (c & evs & ts & Hshape).
  assert (Hone : forall (w : World) (c0 : Canvas.t),
             dom w !! i = Some (ImgEl image) -> dom w !! k = Some (CanvasEl c0) ->
             handleExport h app w = (Returned tt, after k c evs ts w)).
  { intros w c0 Hi Hc.
    rewrite (handleExport_exported h app w i k image c0 Himg Hi Hcan Hc).
    rewrite Hshape. reflexivity. }
  exists c, evs, ts. split; [exact Hone|].
  intros w c0 Hi Hc.
  pose proof (lookup_lt_Some _ _ _ Hc) as Hk.
  assert (Hik : k <> i) by (intros ->; rewrite Hi in Hc; discriminate Hc).
  exists (after k c evs ts w), (after k c evs ts (after k c evs ts w)).
  split; [exact (Hone w c0 Hi Hc)|]. split.
  - apply (Hone _ c).
    + cbn [dom after]. rewrite list_lookup_insert_ne by exact Hik. exact Hi.
    + apply lookup_after, Hk.
  - cbn [dom log after]. split.
    + apply list_insert_insert_eq.
    + rewrite <- app_assoc. reflexivity.
Qed.

Lemma export_independent_of_page_witness :
  exists w1 w2,
    handleExport host_ok (app0 (Some crop_200x150) DEFAULT_ADJ) (page image_4000x3000)
    = (Returned tt, w1)
    /\ handleExport host_ok (app0 (Some crop_200x150) DEFAULT_ADJ) w1
       = (Returned tt, w2)
    /\ dom w2 = dom w1.
Proof.
  destruct (export_independent_of_page host_ok (app0 (Some crop_200x150) DEFAULT_ADJ)
              0 1 image_4000x3000 eq_refl eq_refl) as (c & evs & ts & _ & Htwice).
  destruct (Htwice (page image_4000x3000) blank_canvas eq_refl eq_refl)
    as (w1 & w2 & H1 & H2 & Hdom & _).
  exists w1, w2. split; [exact H1|]. split; [exact H2|exact Hdom].
Defined.

(** ** Signs and bounds of the numbers in the filter and the vignette *)

Lemma binary_round_aux_sign (s : bool) (m e : Z) (l : location) :
  sign_or_nan s (binary_round_aux prec emax s m e l).
Proof.
  unfold binary_round_aux, sign_or_nan.
  destruct (shr_fexp prec emax m e l) as [mrs' e'].
  destruct (shr_fexp prec emax _ e' loc_Exact) as [mrs'' e''].
  destruct (shr_m mrs'') as [|p|p].
  - right. left. reflexivity.
  - destruct (e'' <=? emax - prec)%Z.
    + right. right. right. exists p, e''. reflexivity.
    + right. right. left. reflexivity.
  - left. reflexivity.
Qed.

Lemma not_below_0 (x : number) : sign_or_nan false (Prim2SF x) -> (x <? 0) = false.
Proof.
  rewrite ltb_spec. unfold SFltb.
  intros [-> | [-> | [-> | (m & e & ->)]]]; reflexivity.
Qed.

Lemma not_above_0 (x : number) : sign_or_nan true (Prim2SF x) -> (0 <? x) = false.
Proof.
  rewrite ltb_spec. unfold SFltb.
  intros [-> | [-> | [-> | (m & e & ->)]]]; reflexivity.
Qed.

Lemma positive_spec (x : number) :
  (0 <? x) = true ->
  Prim2SF x = S754_infinity false \/ exists m e, Prim2SF x = S754_finite false m e.
Proof.
  rewrite ltb_spec. unfold SFltb.
  destruct (Prim2SF x) as [[|]|[|]| |[|] m e]; cbn; try discriminate; eauto.
Qed.

Lemma negative_spec (x : number) :
  (x <? 0) = true ->
  Prim2SF x = S754_infinity true \/ exists m e, Prim2SF x = S754_finite true m e.
Proof.
  rewrite ltb_spec. unfold SFltb.
  destruct (Prim2SF x) as [[|]|[|]| |[|] m e]; cbn; try discriminate; eauto.
Qed.

Lemma Prim2SF_1_5 : exists m e, Prim2SF 1.5 = S754_finite false m e.
Proof. do 2 eexists. vm_compute. reflexivity. Qed.

Lemma negative_times_1_5 (t : number) :
  (t <? 0) = true -> sign_or_nan true (Prim2SF (t * 1.5)).
Proof.
  intros H. rewrite mul_spec. destruct Prim2SF_1_5 as (m' & e' & ->).
  destruct (negative_spec t H) as [-> | (m & e & ->)].
  - right. right. left. reflexivity.
  - apply binary_round_aux_sign.
Qed.

Lemma positive_div_100 (v : number) :
  (0 <? v) = true -> sign_or_nan false (Prim2SF (v / 100)).
Proof.
  intros H. rewrite div_spec, Prim2SF_100.
  destruct (positive_spec v H) as [-> | (m & e & ->)].
  - right. right. left. reflexivity.
  - unfold SF64div, SFdiv.
    destruct (SFdiv_core_binary prec emax (Z.pos m) e _ _) as [[mz ez] lz].
    apply binary_round_aux_sign.
Qed.

Lemma ltb_nan_r (a : number) : (a <? nan) = false.
Proof.
  rewrite ltb_spec. change (Prim2SF nan) with S754_nan. unfold SFltb.
  destruct (Prim2SF a); reflexivity.
Qed.

Lemma ltb_nan_l (a : number) : (nan <? a) = false.
Proof. rewrite ltb_spec. reflexivity. Qed.

Lemma ltb_irrefl (a : number) : (a <? a) = false.
Proof.
  destruct (a <? a) eqn:E; [|reflexivity].
  rewrite (ltb_asym a a E) in E. discriminate E.
Qed.

(** [Math.min(x, c)] is never above [c], nor [Math.max(c, y)] below. *)
Lemma Math_min_cap (x c : number) : (c <? Math_min x c) = false.
Proof.
  unfold Math_min. destruct (is_nan x || is_nan c); [apply ltb_nan_r|].
  destruct (x <? c) eqn:E1; [apply ltb_asym, E1|].
  destruct (c <? x) eqn:E2; [apply ltb_irrefl|].
  destruct (get_sign x); [exact E2|apply ltb_irrefl].
Qed.

Lemma Math_max_floor (c y : number) : (Math_max c y <? c) = false.
Proof.
  unfold Math_max. destruct (is_nan c || is_nan y); [apply ltb_nan_l|].
  destruct (c <? y) eqn:E1; [apply ltb_asym, E1|].
  destruct (y <? c) eqn:E2; [apply ltb_irrefl|].
  destruct (get_sign c); [exact E2|apply ltb_irrefl].
Qed.

Lemma Math_min_not_below_0 (x : number) :
  (x <? 0) = false -> (Math_min x 0.85 <? 0) = false.
Proof.
  intros Hx. unfold Math_min.
  destruct (is_nan x || is_nan 0.85); [apply ltb_nan_l|].
  destruct (x <? 0.85); [exact Hx|].
  destruct (0.85 <? x); [reflexivity|].
  destruct (get_sign x); [exact Hx|reflexivity].
Qed.

(** X7. The source region is all or nothing: either the crop is valid
    and all four fields are the crop's fields times the scale, or the
    region is the whole natural image; a mix never occurs. A crop whose
    width or height is NaN counts as no crop, and the position of a
    valid crop is scaled as it is, with no clamping to the image. *)
Theorem source_region_all_or_nothing (image : Image.t)
    (completedCrop : option Crop.t) :
  ((exists c, completedCrop = Some c
              /\ gt (Crop.width c) 0 = true /\ gt (Crop.height c) 0 = true
              /\ sourceRegion image completedCrop
                 = {| sourceX := Crop.x c * scaleX image;
                      sourceY := Crop.y c * scaleY image;
                      sourceWidth := Crop.width c * scaleX image;
                      sourceHeight := Crop.height c * scaleY image |})
   \/ (isCropValid completedCrop = false
       /\ sourceRegion image completedCrop
          = {| sourceX := 0; sourceY := 0;
               sourceWidth := Image.naturalWidth image;
               sourceHeight := Image.naturalHeight image |}))
  /\ (forall c, completedCrop = Some c ->
        is_nan (Crop.width c) = true \/ is_nan (Crop.height c) = true ->
        sourceRegion image completedCrop
        = {| sourceX := 0; sourceY := 0;
             sourceWidth := Image.naturalWidth image;
             sourceHeight := Image.naturalHeight image |}).
Proof.
  split.
  - destruct completedCrop as [c|]; [|right; split; reflexivity].
    unfold sourceRegion.
    destruct (isCropValid (Some c)) eqn:E; [left|right; split; reflexivity].
    exists c. unfold isCropValid in E. apply andb_prop in E as [Hw Hh].
    repeat split; assumption.
  - intros c -> Hnan. unfold sourceRegion, isCropValid.
    destruct Hnan as [H|H]; rewrite (nan_not_gt_0 _ H);
      rewrite ?andb_false_r; reflexivity.
Qed.

Lemma source_region_all_or_nothing_witness :
  sourceRegion image_4000x3000 (Some crop_nan_width)
  = {| sourceX := 0; sourceY := 0; sourceWidth := 4000; sourceHeight := 3000 |}.
Proof.
  exact (proj2 (source_region_all_or_nothing image_4000x3000 (Some crop_nan_width))
           crop_nan_width eq_refl (or_introl eq_refl)).
Defined.

(** X8. The alpha of the vignette, [Math.min(v / 100, 0.85)], is the
    same number in the baked gradient and in the preview overlay; it is
    never above 0.85 and, when the vignette is on ([v > 0]), never below
    0. The inner stop of the preview, [Math.max(0, 60 - v / 2)] percent,
    is never below 0. *)
Theorem vignette_alpha_bounds (adj : Adj.t) :
  let v := Adj.vignette adj in
  exists alpha inner : number,
    vignette_color v = [Lit "rgba(0,0,0,"; Num alpha; Lit ")"]
    /\ vignette_overlay_background adj
       = [Lit "radial-gradient(circle, transparent "; Num inner;
          Lit "%, rgba(0,0,0,"; Num alpha; Lit ") 100%)"]
    /\ (0.85 <? alpha) = false
    /\ (gt v 0 = true -> (alpha <? 0) = false)
    /\ (inner <? 0) = false.
Proof.
  intros v. do 2 eexists. split; [reflexivity|]. split; [reflexivity|].
  split; [apply Math_min_cap|]. split; [|apply Math_max_floor].
  intros Hv. apply Math_min_not_below_0, not_below_0, positive_div_100, Hv.
Qed.

Lemma vignette_alpha_bounds_witness :
  vignette_color 40 = [Lit "rgba(0,0,0,"; Num 0.4; Lit ")"]
  /\ (Math_min (40 / 100) 0.85 <? 0) = false.
Proof.
  destruct (vignette_alpha_bounds (set_vignette 40 DEFAULT_ADJ))
    as (alpha & inner & Hc & _ & _ & Hlo & _).
  split; [reflexivity|].
  injection Hc as <-. exact (Hlo eq_refl).
Defined.

(** X9. For every temperature, NaN and out-of-range values included,
    the sepia amount of the compiled filter is never below 0, its hue
    rotation is never above 0, and at least one of the two is zero: the
    warm and the cool transform are never applied together. *)
Theorem filter_sepia_and_hue_signs (adj : Adj.t) :
  exists s d : number,
    ctx_filter adj
    = [Lit "brightness("; Num (Adj.brightness adj);
       Lit "%) contrast("; Num (Adj.contrast adj);
       Lit "%) saturate("; Num (Adj.saturation adj);
       Lit "%) sepia("; Num s; Lit "%) hue-rotate("; Num d; Lit "deg)"]
    /\ (s <? 0) = false
    /\ (0 <? d) = false
    /\ ((s =? 0) = true \/ (d =? 0) = true).
Proof.
  exists (sepia (Adj.temperature adj)), (hue (Adj.temperature adj)).
  split; [reflexivity|]. unfold sepia, hue.
  destruct (gt (Adj.temperature adj) 0) eqn:Eg.
  - rewrite (gt_0_not_lt_0 _ Eg). split; [exact (gt_0_not_lt_0 _ Eg)|].
    split; [reflexivity|right; reflexivity].
  - split; [reflexivity|]. split; [|left; reflexivity].
    destruct (lt (Adj.temperature adj) 0) eqn:El; [|reflexivity].
    apply not_above_0, negative_times_1_5, El.
Qed.

(** ** The controls *)

Lemma Key_eqb_eq (a b : Key.t) : Key.eqb a b = true <-> a = b.
Proof. destruct a, b; cbn; split; congruence. Qed.

Lemma Key_eqb_refl (a : Key.t) : Key.eqb a a = true.
Proof. destruct a; reflexivity. Qed.

Lemma Key_eqb_neq (a b : Key.t) : a <> b -> Key.eqb a b = false.
Proof. destruct a, b; cbn; congruence. Qed.

Lemma adj_get_set (key : Key.t) (v : number) (adj : Adj.t) :
  adj_get key (adj_set key v adj) = v.
Proof. destruct key; reflexivity. Qed.

Lemma adj_get_set_other (key key' : Key.t) (v : number) (adj : Adj.t) :
  key' <> key -> adj_get key' (adj_set key v adj) = adj_get key' adj.
Proof. destruct key, key'; cbn; congruence. Qed.

(** X10. Moving the slider of one key stores [parseFloat] of its value
    under that key and leaves the other four keys, the image, both
    crops, the aspect and the refs as they were. The last move on a key
    wins, and moves on two different keys can be made in either order. *)
Theorem slider_sets_one_key (parseFloat : string -> number)
    (key : Key.t) (value : string) (app : App.t) :
  let app' := slider_onChange parseFloat key value app in
  adj_get key (App.adj app') = parseFloat value
  /\ (forall key', key' <> key ->
        adj_get key' (App.adj app') = adj_get key' (App.adj app))
  /\ (App.imgSrc app' = App.imgSrc app /\ App.crop app' = App.crop app
      /\ App.completedCrop app' = App.completedCrop app
      /\ App.aspect app' = App.aspect app
      /\ App.imgRef app' = App.imgRef app
      /\ App.downloadCanvasRef app' = App.downloadCanvasRef app)
  /\ (forall value',
        slider_onChange parseFloat key value' app'
        = slider_onChange parseFloat key value' app)
  /\ (forall key' value', key' <> key ->
        slider_onChange parseFloat key' value' app'
        = slider_onChange parseFloat key value
            (slider_onChange parseFloat key' value' app)).
Proof.
  intros app'. split; [apply adj_get_set|].
  split; [intros key' Hne; apply adj_get_set_other, Hne|].
  split; [repeat split|]. split.
  - intros value'. destruct key; reflexivity.
  - intros key' value' Hne. destruct key, key'; try reflexivity; contradiction.
Qed.

Lemma slider_sets_one_key_witness :
  let app' := slider_onChange (fun _ => 150) Key.vignette "150"
                (app0 None DEFAULT_ADJ) in
  adj_get Key.vignette (App.adj app') = 150
  /\ adj_get Key.temperature (App.adj app') = 0.
Proof.
  intros app'.
  destruct (slider_sets_one_key (fun _ => 150) Key.vignette "150"
              (app0 None DEFAULT_ADJ)) as (Hkey & Hother & _).
  split; [exact Hkey|].
  exact (Hother Key.temperature ltac:(discriminate)).
Defined.

(** "Default" undoes every slider move: after it the adjustments are
    [DEFAULT_ADJ] whatever was moved before, every key is inside the
    range of its slider, and the crop and the image are untouched. *)
Lemma reset_restores_defaults (parseFloat : string -> number)
    (key : Key.t) (value : string) (app : App.t) :
  reset_onClick (slider_onChange parseFloat key value app) = reset_onClick app
  /\ App.adj (reset_onClick app) = DEFAULT_ADJ
  /\ (forall key',
        (slider_min key' <=? adj_get key' (App.adj (reset_onClick app))) = true
        /\ (adj_get key' (App.adj (reset_onClick app)) <=? slider_max key') = true)
  /\ App.completedCrop (reset_onClick app) = App.completedCrop app
  /\ App.imgSrc (reset_onClick app) = App.imgSrc app.
Proof.
  split; [reflexivity|]. split; [reflexivity|].
  split; [|split; reflexivity].
  intros key'. destruct key'; split; reflexivity.
Qed.

(** X11. The controls are independent. The vignette slider never
    changes the filter of the preview or of the export; the other four
    sliders never change the vignette overlay or its baked colour; and
    no slider changes the source region of the export. *)
Theorem sliders_are_independent (parseFloat : string -> number)
    (key : Key.t) (value : string) (app : App.t) :
  let app' := slider_onChange parseFloat key value app in
  (key = Key.vignette ->
   img_style_filter (App.adj app') = img_style_filter (App.adj app)
   /\ ctx_filter (App.adj app') = ctx_filter (App.adj app))
  /\ (key <> Key.vignette ->
      vignette_overlay_background (App.adj app')
      = vignette_overlay_background (App.adj app)
      /\ vignette_color (Adj.vignette (App.adj app'))
         = vignette_color (Adj.vignette (App.adj app)))
  /\ (forall image,
        sourceRegion image (App.completedCrop app')
        = sourceRegion image (App.completedCrop app)).
Proof.
  intros app'. split; [|split].
  - intros ->. split; reflexivity.
  - intros Hne. destruct key; try contradiction; split; reflexivity.
  - reflexivity.
Qed.

Lemma sliders_are_independent_witness :
  ctx_filter (App.adj (slider_onChange (fun _ => 150) Key.vignette "150"
                         (app0 None DEFAULT_ADJ)))
  = ctx_filter DEFAULT_ADJ.
Proof.
  exact (proj2 (proj1 (sliders_are_independent (fun _ => 150) Key.vignette "150"
                         (app0 None DEFAULT_ADJ)) eq_refl)).
Defined.

Lemma handleAspectChange_aspect
    (makeAspectCrop : Crop.partial -> number -> number -> number -> Crop.t)
    (centerCrop : Crop.t -> number -> number -> Crop.t)
    (newAspect : number) (document : list Element) (app : App.t) :
  App.aspect (handleAspectChange makeAspectCrop centerCrop newAspect document app)
  = newAspect.
Proof.
  unfold handleAspectChange. cbn [App.imgRef App.setAspect].
  destruct (App.imgRef app) as [el|]; [|reflexivity].
  destruct (document !! el) as [[| |]|]; reflexivity.
Qed.

(** X12. After a click on a preset button exactly that button is
    "active": the buttons compare the aspect with [===] against
    [16 / 9], [1] and [9 / 16], which are three different numbers, and
    [handleAspectChange] stores the aspect it is given whether or not an
    image is mounted. *)
Theorem clicked_preset_is_the_active_one
    (makeAspectCrop : Crop.partial -> number -> number -> number -> Crop.t)
    (centerCrop : Crop.t -> number -> number -> Crop.t)
    (document : list Element) (app : App.t) :
  let click r := handleAspectChange makeAspectCrop centerCrop r document app in
  ratio_group (click (16 / 9)) = [("16:9", "active"); ("1:1", ""); ("9:16", "")]
  /\ ratio_group (click 1) = [("16:9", ""); ("1:1", "active"); ("9:16", "")]
  /\ ratio_group (click (9 / 16)) = [("16:9", ""); ("1:1", ""); ("9:16", "active")]
  /\ (forall r, App.aspect (click r) = r).
Proof.
  intros click. unfold ratio_group, click.
  rewrite !handleAspectChange_aspect.
  repeat split; try (vm_compute; reflexivity).
  intros r. apply handleAspectChange_aspect.
Qed.

(** X13. A preset clicked while no image is mounted ([imgRef] holds no
    image) changes the aspect only: the widget crop and the committed
    crop stay as they are, and so does the region an export would take. *)
Theorem preset_without_image_keeps_crop
    (makeAspectCrop : Crop.partial -> number -> number -> number -> Crop.t)
    (centerCrop : Crop.t -> number -> number -> Crop.t)
    (newAspect : number) (document : list Element) (app : App.t) :
  img_at (App.imgRef app) document = None ->
  let app' := handleAspectChange makeAspectCrop centerCrop newAspect document app in
  app' = App.setAspect newAspect app
  /\ App.crop app' = App.crop app
  /\ App.completedCrop app' = App.completedCrop app
  /\ forall image, sourceRegion image (App.completedCrop app')
                   = sourceRegion image (App.completedCrop app).
Proof.
  intros H app'.
  assert (E : app' = App.setAspect newAspect app).
  { unfold app', handleAspectChange. cbn [App.imgRef App.setAspect].
    unfold img_at in H.
    destruct (App.imgRef app) as [el|]; [|reflexivity].
    destruct (document !! el) as [[| |]|]; try reflexivity. discriminate H. }
  rewrite E. repeat split.
Qed.

Lemma preset_without_image_keeps_crop_witness :
  App.completedCrop
    (handleAspectChange ReactImageCrop.makeAspectCrop ReactImageCrop.centerCrop 1
       [CanvasEl blank_canvas] (app0 (Some crop_200x150) DEFAULT_ADJ))
  = Some crop_200x150.
Proof.
  exact (proj1 (proj2 (proj2 (preset_without_image_keeps_crop
                                ReactImageCrop.makeAspectCrop ReactImageCrop.centerCrop 1
                                [CanvasEl blank_canvas]
                                (app0 (Some crop_200x150) DEFAULT_ADJ) eq_refl)))).
Defined.

(** X14. Choosing files: with no file list or an empty one nothing
    changes. Otherwise only the first file is used; once it is read the
    image source is its data URL, the sliders are back at
    [DEFAULT_ADJ] and the committed crop is cleared, so an export takes
    the whole image whatever crop was committed for the previous
    image, while the widget crop and the aspect are kept. *)
Theorem choosing_a_file (files : option (list string)) (app : App.t) :
  (files = None \/ files = Some [] -> onSelectFile files app = app)
  /\ (forall file rest,
        files = Some (file :: rest) ->
        let app' := onSelectFile files app in
        app' = onSelectFile (Some [file]) app
        /\ App.imgSrc app' = file
        /\ App.adj app' = DEFAULT_ADJ
        /\ App.completedCrop app' = None
        /\ App.crop app' = App.crop app
        /\ App.aspect app' = App.aspect app
        /\ forall image,
             sourceRegion image (App.completedCrop app')
             = {| sourceX := 0; sourceY := 0;
                  sourceWidth := Image.naturalWidth image;
                  sourceHeight := Image.naturalHeight image |}).
Proof.
  split.
  - intros [-> | ->]; reflexivity.
  - intros file rest ->. repeat split.
Qed.

Lemma choosing_a_file_witness :
  sourceRegion image_4000x3000
    (App.completedCrop
       (onSelectFile (Some ["data:image/png;base64,BBBB"; "data:image/png;base64,CCCC"])
          (app0 (Some crop_200x150) DEFAULT_ADJ)))
  = {| sourceX := 0; sourceY := 0; sourceWidth := 4000; sourceHeight := 3000 |}.
Proof.
  destruct (proj2 (choosing_a_file
                     (Some ["data:image/png;base64,BBBB"; "data:image/png;base64,CCCC"])
                     (app0 (Some crop_200x150) DEFAULT_ADJ))
              _ _ eq_refl) as (_ & _ & _ & _ & _ & _ & H).
  exact (H image_4000x3000).
Defined.

(** ** Background removal *)

Lemma handleRemoveBG_started (h : Host) (r : Removal)
    (meanwhile : App.t -> App.t) (app : App.t) :
  App.imgSrc app <> "" ->
  handleRemoveBG h r meanwhile app
  = (fst (handleRemoveBG_settle h r (meanwhile (setIsProcessing true app))),
     RemoveBackground (App.imgSrc app) "medium"
       :: snd (handleRemoveBG_settle h r (meanwhile (setIsProcessing true app)))).
Proof.
  intros Hsrc. unfold handleRemoveBG, handleRemoveBG_begin.
  destruct (String.eqb_spec (App.imgSrc app) "") as [E|_]; [contradiction|].
  destruct (handleRemoveBG_settle h r _) as [app2 evs2]. reflexivity.
Qed.

Lemma progress_is_a_log (url : string) (rs : list (string * number * number)) :
  ~ In (Browser (RevokeObjectURL url)) (map progress rs).
Proof.
  intros H. apply in_map_iff in H as ([[key current] total] & E & _).
  discriminate E.
Qed.

Lemma rerender_isProcessing (boxWidth boxHeight : number) (before after : App.t) :
  App.isProcessing (rerender boxWidth boxHeight before after)
  = App.isProcessing after.
Proof.
  unfold rerender.
  destruct (_ || _); [reflexivity|].
  destruct (ReactImageCrop.componentDidUpdate _ _ _ _); reflexivity.
Qed.

(** No handler lowers the busy flag once it is up. *)
Lemma handler_of_busy (parseFloat : string -> number) (a : Action) (app : App.t) :
  App.isProcessing app = true ->
  App.isProcessing (handler_of parseFloat a app) = true.
Proof.
  intros Hb. destruct a as [key value| |files|width height|newAspect document|c|c|];
    cbn [handler_of]; try exact Hb.
  - destruct files as [[|file rest]|]; exact Hb.
  - unfold handleAspectChange. cbn [App.imgRef App.setAspect].
    destruct (App.imgRef app) as [el|]; [|exact Hb].
    destruct (document !! el) as [[image|canvas|anchor]|]; exact Hb.
  - unfold magic_btn_disabled. rewrite Hb. exact Hb.
Qed.

Lemma run_actions_busy (parseFloat : string -> number)
    (steps : list (Action * (number * number))) (app : App.t) :
  App.isProcessing app = true ->
  App.isProcessing (run_actions parseFloat steps app) = true.
Proof.
  revert app. induction steps as [|[a [bw bh]] steps IH]; intros app Hb; [exact Hb|].
  cbn [run_actions fold_left]. apply IH.
  cbn [run_action]. rewrite rerender_isProcessing.
  apply handler_of_busy, Hb.
Qed.

(** X15. The busy flag of background removal. Without an image the
    handler does nothing: the library is not called and the state is
    unchanged. With an image the flag is up, and the button disabled,
    from the call of [removeBackground] until its promise settles:
    whatever the user and the page do in between (sliders, "Default",
    choosing files, loads of the image, presets, drags, clicks on the
    disabled button), the flag is up after each of these steps. Once
    the promise settles the flag is down again, whether it resolved or
    rejected. *)
Theorem remove_bg_busy_flag (h : Host) (r : Removal)
    (parseFloat : string -> number)
    (steps : list (Action * (number * number))) (app : App.t) :
  (App.imgSrc app = "" ->
   handleRemoveBG_begin app = None
   /\ handleRemoveBG h r (run_actions parseFloat steps) app = (app, []))
  /\ (App.imgSrc app <> "" ->
      exists app1,
        handleRemoveBG_begin app
        = Some (app1, [RemoveBackground (App.imgSrc app) "medium"])
        /\ magic_btn_disabled app1 = true
        /\ (forall done rest,
              steps = done ++ rest ->
              magic_btn_disabled (run_actions parseFloat done app1) = true
              /\ handler_of parseFloat ClickRemoveBackground
                   (run_actions parseFloat done app1)
                 = run_actions parseFloat done app1)
        /\ magic_btn_disabled
             (fst (handleRemoveBG h r (run_actions parseFloat steps) app)) = false
        /\ (forall meanwhile : App.t -> App.t,
              magic_btn_disabled (fst (handleRemoveBG h r meanwhile app)) = false)).
Proof.
  split.
  - intros E. unfold handleRemoveBG, handleRemoveBG_begin. rewrite E. split; reflexivity.
  - intros Hsrc.
    assert (Hdown : forall meanwhile : App.t -> App.t,
               magic_btn_disabled (fst (handleRemoveBG h r meanwhile app)) = false).
    { intros meanwhile. rewrite (handleRemoveBG_started h r meanwhile app Hsrc).
      unfold handleRemoveBG_settle. destruct (settled r); reflexivity. }
    unfold handleRemoveBG_begin.
    destruct (String.eqb_spec (App.imgSrc app) "") as [E|_]; [contradiction|].
    eexists. split; [reflexivity|]. split; [reflexivity|].
    split; [|split; [apply Hdown|exact Hdown]].
    intros done rest _.
    assert (Hb : magic_btn_disabled
                   (run_actions parseFloat done (setIsProcessing true app)) = true)
      by (apply run_actions_busy; reflexivity).
    split; [exact Hb|].
    cbn [handler_of]. rewrite Hb. reflexivity.
Qed.

Lemma remove_bg_busy_flag_witness :
  magic_btn_disabled
    (run_actions (fun _ => 50)
       [(MoveSlider Key.vignette "50", (800, 600));
        (ChooseFiles (Some ["data:image/png;base64,BBBB"]), (800, 600));
        (ImageLoad 800 600, (800, 600));
        (ClickRemoveBackground, (800, 600))]
       (setIsProcessing true (app0 None DEFAULT_ADJ)))
  = true
  /\ magic_btn_disabled
       (fst (handleRemoveBG host_ok removal_fails
               (run_actions (fun _ => 50)
                  [(MoveSlider Key.vignette "50", (800, 600));
                   (ChooseFiles (Some ["data:image/png;base64,BBBB"]), (800, 600));
                   (ImageLoad 800 600, (800, 600));
                   (ClickRemoveBackground, (800, 600))])
               (app0 None DEFAULT_ADJ)))
     = false
  /\ handleRemoveBG host_ok removal_ok (run_actions (fun _ => 50) []) app_unmounted
     = (app_unmounted, []).
Proof.
  split; [|split].
  - destruct (proj2 (remove_bg_busy_flag host_ok removal_fails (fun _ => 50)
                       [(MoveSlider Key.vignette "50", (800, 600));
                        (ChooseFiles (Some ["data:image/png;base64,BBBB"]), (800, 600));
                        (ImageLoad 800 600, (800, 600));
                        (ClickRemoveBackground, (800, 600))]
                       (app0 None DEFAULT_ADJ)) ltac:(discriminate))
      as (app1 & Hbegin & _ & Hup & _).
    injection Hbegin as <-.
    exact (proj1 (Hup _ [] (eq_sym (app_nil_r _)))).
  - destruct (proj2 (remove_bg_busy_flag host_ok removal_fails (fun _ => 50)
                       [(MoveSlider Key.vignette "50", (800, 600));
                        (ChooseFiles (Some ["data:image/png;base64,BBBB"]), (800, 600));
                        (ImageLoad 800 600, (800, 600));
                        (ClickRemoveBackground, (800, 600))]
                       (app0 None DEFAULT_ADJ)) ltac:(discriminate))
      as (app1 & _ & _ & _ & H & _).
    exact H.
  - exact (proj2 (proj1 (remove_bg_busy_flag host_ok removal_ok (fun _ => 50) []
                           app_unmounted) eq_refl)).
Defined.

(** X16. When background removal fails, the progress reports made so
    far are logged, then the error as "BG removal error:", and the user
    is alerted; nothing else happens: no object URL is made, and the
    image source, the sliders, both crops and the aspect are what they
    were when the promise rejected. If nothing else ran in between and
    the flag was down at the click, the state after the failure is the
    state before the click. *)
Theorem remove_bg_failure_keeps_state (h : Host) (r : Removal) (err : Exn)
    (meanwhile : App.t -> App.t) (app : App.t) :
  App.imgSrc app <> "" -> settled r = inr err ->
  let pending := meanwhile (setIsProcessing true app) in
  let app' := fst (handleRemoveBG h r meanwhile app) in
  snd (handleRemoveBG h r meanwhile app)
  = RemoveBackground (App.imgSrc app) "medium"
      :: map progress (reports r)
      ++ [Browser (ConsoleError "BG removal error:" err); Alert bg_alert]
  /\ (App.imgSrc app' = App.imgSrc pending /\ App.adj app' = App.adj pending
      /\ App.crop app' = App.crop pending
      /\ App.completedCrop app' = App.completedCrop pending
      /\ App.aspect app' = App.aspect pending)
  /\ ((forall a, meanwhile a = a) -> App.isProcessing app = false -> app' = app).
Proof.
  intros Hsrc Hr pending app'. unfold app'.
  rewrite (handleRemoveBG_started h r meanwhile app Hsrc).
  unfold handleRemoveBG_settle. rewrite Hr. cbn [fst snd]. fold pending.
  split; [reflexivity|]. split; [repeat split|].
  intros Hid Hflag. unfold pending. rewrite Hid.
  destruct app. cbn in Hflag. subst. reflexivity.
Qed.

Lemma remove_bg_failure_keeps_state_witness :
  fst (handleRemoveBG host_ok removal_fails (fun a => a)
         (app0 (Some crop_200x150) DEFAULT_ADJ))
  = app0 (Some crop_200x150) DEFAULT_ADJ.
Proof.
  exact (proj2 (proj2 (remove_bg_failure_keeps_state host_ok removal_fails TypeError
                         (fun a => a) (app0 (Some crop_200x150) DEFAULT_ADJ)
                         ltac:(discriminate) eq_refl))
           (fun a => eq_refl) eq_refl).
Defined.

(** X17. When background removal succeeds, [removeBackground] was
    called on the image source of the click with the "medium" model,
    one object URL is made for the blob and becomes the image source,
    replacing whatever source is current by then, also one the user
    chose while the promise was pending. The sliders, both crops and
    the aspect are not reset, and the object URL is never revoked. *)
Theorem remove_bg_success_replaces_image (h : Host) (r : Removal) (blob : Blob)
    (meanwhile : App.t -> App.t) (app : App.t) :
  App.imgSrc app <> "" -> settled r = inl blob ->
  let pending := meanwhile (setIsProcessing true app) in
  let app' := fst (handleRemoveBG h r meanwhile app) in
  let evs := snd (handleRemoveBG h r meanwhile app) in
  evs = RemoveBackground (App.imgSrc app) "medium"
          :: map progress (reports r)
          ++ [Browser (CreateObjectURL blob (objectURL h blob))]
  /\ App.imgSrc app' = objectURL h blob
  /\ (App.adj app' = App.adj pending /\ App.crop app' = App.crop pending
      /\ App.completedCrop app' = App.completedCrop pending
      /\ App.aspect app' = App.aspect pending)
  /\ (forall url, ~ In (Browser (RevokeObjectURL url)) evs)
  /\ (forall file,
        meanwhile = onSelectFile_onload file ->
        App.imgSrc app' = objectURL h blob /\ App.adj app' = DEFAULT_ADJ
        /\ App.completedCrop app' = None).
Proof.
  intros Hsrc Hr pending app' evs. unfold app', evs.
  rewrite (handleRemoveBG_started h r meanwhile app Hsrc).
  unfold handleRemoveBG_settle. rewrite Hr. cbn [fst snd]. fold pending.
  split; [reflexivity|]. split; [reflexivity|]. split; [repeat split|]. split.
  - intros url [H|H]; [discriminate H|].
    apply in_app_iff in H as [H|[H|[]]]; [|discriminate H].
    exact (progress_is_a_log url _ H).
  - intros file Hm. unfold pending. rewrite Hm. repeat split.
Qed.

Lemma remove_bg_success_replaces_image_witness :
  App.imgSrc (fst (handleRemoveBG host_ok removal_ok
                     (onSelectFile_onload "data:image/png;base64,BBBB")
                     (app0 (Some crop_200x150) DEFAULT_ADJ)))
  = "blob:1".
Proof.
  exact (proj1 (proj2 (remove_bg_success_replaces_image host_ok removal_ok (png 2)
                         (onSelectFile_onload "data:image/png;base64,BBBB")
                         (app0 (Some crop_200x150) DEFAULT_ADJ)
                         ltac:(discriminate) eq_refl))).
Defined.
